(** * hf_search_tool.py: the Hugging Face search adapter

    A shallow embedding of [scripts/hf_search_tool.py] (class
    [HuggingFaceSearch]) and the properties of its search, formatting and
    CSV export methods.

    Conventions of the embedding
    - A Python [str] is a [string] (a sequence of bytes, UTF-8 for text
      outside ASCII); [str.lower], [str.strip] and [str.split] are modelled
      on ASCII, and the properties that depend on them are stated for ASCII
      text.
    - Python values that the code handles dynamically ([getattr] results,
      dictionary values) are [pyval]s: [None], [bool], [int] and [str].
    - An object yielded by the listing call is a [pyobj]: its attribute
      dictionary and the text [str(model)] gives.
    - Exceptions are values of [pyexc]: the instances of [Exception], which
      the handlers of the module catch, and the others ([KeyboardInterrupt],
      [SystemExit]), which they let through.
    - Logging, printing and the file system are explicit state ([world]),
      threaded by the monad [M], whose results are a value or a raised
      exception. What the file system answers (the file a name denotes,
      whether a directory can be made and a file opened) is part of the
      world. *)

From Stdlib Require Import ZArith Ascii String DecimalString.
From stdpp Require Import base option list strings gmap.

Local Open Scope Z_scope.

(** ** Python values *)

Inductive pyval : Type :=
| PyNone
| PyBool (b : bool)
| PyInt (z : Z)
| PyStr (s : string).

Global Instance pyval_eq_dec : EqDecision pyval.
Proof. solve_decision. Defined.

(** Exceptions, with the class name and the message: the instances of
    [Exception], and the instances of [BaseException] that are not. *)
Inductive pyexc : Type :=
| PyException (cls : string) (msg : string)
| PyBaseException (cls : string) (msg : string).

Global Instance pyexc_eq_dec : EqDecision pyexc.
Proof. solve_decision. Defined.

(** [isinstance(e, Exception)] *)
Definition is_Exception (e : pyexc) : bool :=
  match e with
  | PyException _ _ => true
  | PyBaseException _ _ => false
  end.

Definition TypeError (msg : string) : pyexc := PyException "TypeError" msg.
Definition ValueError (msg : string) : pyexc := PyException "ValueError" msg.

(** The outcome of an evaluation: a value, or a raised exception. *)
Inductive res (A : Type) : Type :=
| Ok (a : A)
| Raise (e : pyexc).
Global Arguments Ok {A} a.
Global Arguments Raise {A} e.

(** The truth value of an object: [bool(v)]. *)
Definition truthy (v : pyval) : bool :=
  match v with
  | PyNone => false
  | PyBool b => b
  | PyInt z => negb (z =? 0)
  | PyStr s => negb (bool_decide (s = ""))
  end.

(** [a or b] *)
Definition py_or (a b : pyval) : pyval := if truthy a then a else b.

(** The integer a value stands for in an arithmetic comparison ([bool] is a
    subclass of [int]). *)
Definition as_int (v : pyval) : option Z :=
  match v with
  | PyInt z => Some z
  | PyBool b => Some (if b then 1 else 0)
  | _ => None
  end.

Definition type_name (v : pyval) : string :=
  match v with
  | PyNone => "NoneType"
  | PyBool _ => "bool"
  | PyInt _ => "int"
  | PyStr _ => "str"
  end.

(** [v >= n] for an [int] [n]: a [TypeError] when [v] is not a number. *)
Definition py_ge (v : pyval) (n : Z) : res bool :=
  match as_int v with
  | Some z => Ok (n <=? z)
  | None =>
      Raise (TypeError ("'>=' not supported between instances of '"
                          +:+ type_name v +:+ "' and 'int'"))
  end.

(** [str(v)] *)
Definition py_str (v : pyval) : string :=
  match v with
  | PyNone => "None"
  | PyBool b => if b then "True" else "False"
  | PyInt z => NilZero.string_of_int (Z.to_int z)
  | PyStr s => s
  end.

(** ** Strings *)

Definition lower_ascii (c : ascii) : ascii :=
  let n := nat_of_ascii c in
  if ((65 <=? n) && (n <=? 90))%nat then ascii_of_nat (n + 32) else c.

(** [s.lower()] *)
Fixpoint lower (s : string) : string :=
  match s with
  | EmptyString => EmptyString
  | String c s' => String (lower_ascii c) (lower s')
  end.

(** [sub in s] on strings *)
Fixpoint str_in (sub s : string) : bool :=
  String.prefix sub s ||
  match s with
  | EmptyString => false
  | String _ s' => str_in sub s'
  end.

(** [c in s] for a one-character string [c] *)
Fixpoint char_in (c : ascii) (s : string) : bool :=
  match s with
  | EmptyString => false
  | String d s' => bool_decide (d = c) || char_in c s'
  end.

(** [s.split(sep, 1)] for a one-character separator: the whole string when
    the separator does not occur, else the text before its first occurrence
    and the text after it. *)
Fixpoint split_1 (sep : ascii) (s : string) : list string :=
  match s with
  | EmptyString => [EmptyString]
  | String c s' =>
      if bool_decide (c = sep) then [EmptyString; s']
      else match split_1 sep s' with
           | [a] => [String c a]
           | a :: rest => String c a :: rest
           | [] => []
           end
  end.

(** ** Upstream objects *)

Record pyobj : Type := {
  obj_attrs : gmap string pyval;   (* the attributes the object has *)
  obj_str : string                 (* str(obj) *)
}.

(** [getattr(obj, name, default)] *)
Definition getattr (o : pyobj) (name : string) (dflt : pyval) : pyval :=
  default dflt (obj_attrs o !! name).

(** ** Model records: the dictionary [_format_model] returns *)

Record ModelRecord : Type := {
  model_name : string;
  task : pyval;
  organization_url : string;
  full_model_id : string;
  organization : string;
  downloads : pyval;
  likes : pyval
}.

Global Instance ModelRecord_eq_dec : EqDecision ModelRecord.
Proof. solve_decision. Defined.

(** ** The world: log, standard output, files *)

Inductive level : Type := INFO | WARNING | ERROR.

(** The messages the module logs, with the values their f-strings embed. *)
Inductive log_msg : Type :=
| MsgSearching (search_params : gmap string pyval)
| MsgFound (n : nat)
| MsgSearchFailed (e : pyexc)
| MsgErrorProcessing (e : pyexc)
| MsgErrorFormatting (e : pyexc).

Record world : Type := {
  w_log : list (level * log_msg);
  w_stdout : list string;          (* the lines printed so far *)
  w_mkdirs : list string;          (* files whose parent directory was made *)
  w_files : gmap string string;    (* file, by its real path, to content *)
  w_realpath : string -> string;   (* the real path of the file a name denotes *)
  w_mkdir_error : string -> option pyexc;
                                   (* what making the parent directory of a
                                      name raises, if it fails *)
  w_open_error : string -> option pyexc
                                   (* what opening a name for writing raises,
                                      if it fails *)
}.

(** Commands: from a world to an outcome and the world after it. *)
Definition M (A : Type) : Type := world -> res A * world.

Definition ret {A} (a : A) : M A := fun w => (Ok a, w).

Definition raise {A} (e : pyexc) : M A := fun w => (Raise e, w).

(** Sequencing: an exception of the first command ends the sequence. *)
Definition bind {A B} (m : M A) (k : A -> M B) : M B :=
  fun w =>
    match m w with
    | (Ok a, w') => k a w'
    | (Raise e, w') => (Raise e, w')
    end.

Notation "x <- m ;; k" := (bind m (fun x => k))
  (at level 100, m at next level, right associativity).
Notation "m ;;; k" := (bind m (fun _ => k))
  (at level 100, right associativity).

(** The outcome of an expression as a command. *)
Definition lift {A} (r : res A) : M A := fun w => (r, w).

(** [try: body except Exception as e: handler]: an exception of [body] that
    is an instance of [Exception] is handled, any other goes on. *)
Definition try_except {A} (body : M A) (handler : pyexc -> M A) : M A :=
  fun w =>
    match body w with
    | (Ok a, w') => (Ok a, w')
    | (Raise e, w') => if is_Exception e then handler e w' else (Raise e, w')
    end.

Definition logger (l : level) (msg : log_msg) : M unit :=
  fun w => (Ok tt, {| w_log := w_log w ++ [(l, msg)];
                   w_stdout := w_stdout w;
                   w_mkdirs := w_mkdirs w;
                   w_files := w_files w;
                   w_realpath := w_realpath w;
                   w_mkdir_error := w_mkdir_error w;
                   w_open_error := w_open_error w |}).

Definition print (line : string) : M unit :=
  fun w => (Ok tt, {| w_log := w_log w;
                   w_stdout := w_stdout w ++ [line];
                   w_mkdirs := w_mkdirs w;
                   w_files := w_files w;
                   w_realpath := w_realpath w;
                   w_mkdir_error := w_mkdir_error w;
                   w_open_error := w_open_error w |}).

(** [Path(filename).parent.mkdir(parents=True, exist_ok=True)]: it raises
    what the file system answers (the parent is a regular file, it may not
    be made), else the request is recorded; the directory tree itself is
    not interpreted. *)
Definition mkdir_parent (filename : string) : M unit :=
  fun w =>
    match w_mkdir_error w filename with
    | Some e => (Raise e, w)
    | None =>
        (Ok tt, {| w_log := w_log w;
                   w_stdout := w_stdout w;
                   w_mkdirs := w_mkdirs w ++ [filename];
                   w_files := w_files w;
                   w_realpath := w_realpath w;
                   w_mkdir_error := w_mkdir_error w;
                   w_open_error := w_open_error w |})
    end.

Definition FileNotFoundError (msg : string) : pyexc :=
  PyException "FileNotFoundError" msg.

(** [open(filename, 'w', newline='')]: the empty name is no file, and the
    file system may refuse any other (a directory, no permission); else the
    file the name denotes exists and is empty afterwards. *)
Definition open_w (filename : string) : M unit :=
  fun w =>
    if bool_decide (filename = "") then
      (Raise (FileNotFoundError "[Errno 2] No such file or directory: ''"), w)
    else
      match w_open_error w filename with
      | Some e => (Raise e, w)
      | None =>
          (Ok tt, {| w_log := w_log w;
                     w_stdout := w_stdout w;
                     w_mkdirs := w_mkdirs w;
                     w_files := <[w_realpath w filename := ""]> (w_files w);
                     w_realpath := w_realpath w;
                     w_mkdir_error := w_mkdir_error w;
                     w_open_error := w_open_error w |})
      end.

(** [f.write(data)] on the file opened as [filename]: [data] is appended. *)
Definition f_write (filename data : string) : M unit :=
  fun w => (Ok tt, {| w_log := w_log w;
                   w_stdout := w_stdout w;
                   w_mkdirs := w_mkdirs w;
                   w_files :=
                     <[w_realpath w filename :=
                         default "" (w_files w !! w_realpath w filename) +:+ data]>
                       (w_files w);
                   w_realpath := w_realpath w;
                   w_mkdir_error := w_mkdir_error w;
                   w_open_error := w_open_error w |}).

(** ** [HuggingFaceSearch._format_model] *)

(** The body of the [try] block: the returned value, or an exception. *)
Definition format_model_try (model : pyobj) : res (option ModelRecord) :=
  let model_id := getattr model "id" (PyStr (obj_str model)) in
  if negb (truthy model_id) then Ok None
  else
    match model_id with
    | PyStr model_id =>
        (* Split model_id into org and name *)
        let parts :=
          if char_in "/" model_id then
            match split_1 "/" model_id with
            | [org; model_name] =>
                Ok (org, model_name, "huggingface.co/" +:+ org)
            | _ => Raise (ValueError "not enough values to unpack")
            end
          else Ok ("independent", model_id, "huggingface.co") in
        match parts with
        | Raise e => Raise e
        | Ok (org, model_name, organization_url) =>
            let task := py_or (getattr model "pipeline_tag" PyNone) (PyStr "other") in
            let downloads := py_or (getattr model "downloads" (PyInt 0)) (PyInt 0) in
            let likes := py_or (getattr model "likes" (PyInt 0)) (PyInt 0) in
            Ok (Some {| model_name := model_name;
                        task := task;
                        organization_url := organization_url;
                        full_model_id := model_id;
                        organization := org;
                        downloads := downloads;
                        likes := likes |})
        end
    | v =>
        (* '/' in model_id *)
        Raise (TypeError ("argument of type '" +:+ type_name v
                            +:+ "' is not iterable"))
    end.

Definition _format_model (model : pyobj) : M (option ModelRecord) :=
  try_except
    (lift (format_model_try model))
    (fun e => logger WARNING (MsgErrorFormatting e) ;;; ret None).

(** ** [HuggingFaceSearch.search] *)

(** The keyword arguments of [search]. *)
Module Args.
Record t : Type := {
  query : option string;
  task : option string;
  organization : option string;
  library : option string;
  sort : string;
  direction : Z;
  limit : Z;
  min_downloads : Z;
  created_after : option string
}.

(** The defaults of the signature. *)
Definition defaults : t := {|
  query := None;
  task := None;
  organization := None;
  library := None;
  sort := "downloads";
  direction := -1;
  limit := 50;
  min_downloads := 0;
  created_after := None
|}.
End Args.

(** [if value: search_params[key] = value], for an [Optional[str]] *)
Definition add_filter (key : string) (value : option string)
    (search_params : gmap string pyval) : gmap string pyval :=
  match value with
  | Some s =>
      if truthy (PyStr s) then <[key := PyStr s]> search_params
      else search_params
  | None => search_params
  end.

Definition build_search_params (a : Args.t) : gmap string pyval :=
  let search_params : gmap string pyval :=
    <["sort" := PyStr (Args.sort a)]>
      (<["direction" := PyInt (Args.direction a)]>
         (<["limit" := PyInt (Args.limit a)]>
            (<["full" := PyBool true]> ∅))) in
  let search_params := add_filter "task" (Args.task a) search_params in
  let search_params := add_filter "author" (Args.organization a) search_params in
  let search_params := add_filter "library" (Args.library a) search_params in
  let search_params := add_filter "search" (Args.query a) search_params in
  let search_params := add_filter "created_at" (Args.created_after a) search_params in
  search_params.

(** What iterating the value of [list_models(...)] does: it ends, yields an
    object and goes on, or raises. *)
Inductive model_iter : Type :=
| IterEnd
| IterYield (model : pyobj) (rest : model_iter)
| IterRaise (e : pyexc).

(** The call of [list_models] with [search_params] as keyword arguments
    raises, or returns an iterable. *)
Inductive listing : Type :=
| ListRaise (e : pyexc)
| ListIter (models : model_iter).

(** [query and query.lower() not in s.lower()] *)
Definition query_not_in (query : option string) (s : string) : bool :=
  match query with
  | Some q => truthy (PyStr q) && negb (str_in (lower q) (lower s))
  | None => false
  end.

(** The body of the inner [try] for one [model]: the [results] list at the
    end of the iteration, or an exception. *)
Definition search_try_model (query : option string) (min_downloads : Z)
    (model : pyobj) (results : list ModelRecord) : M (list ModelRecord) :=
  model_data <- _format_model model ;;
  match model_data with
  | Some model_data =>
      (* Apply download filter *)
      ge <- lift (py_ge (downloads model_data) min_downloads) ;;
      let results := if ge then results ++ [model_data] else results in
      (* Apply text query filter if needed *)
      if query_not_in query (model_name model_data) then
        if query_not_in query (full_model_id model_data) then
          ret results                      (* continue *)
        else ret results
      else ret results
  | None => ret results
  end.

(** The [for model in models] loop, from the [results] so far. *)
Fixpoint search_loop (query : option string) (min_downloads : Z)
    (models : model_iter) (results : list ModelRecord) : M (list ModelRecord) :=
  match models with
  | IterEnd => ret results
  | IterRaise e => raise e
  | IterYield model rest =>
      results <-
        try_except
          (search_try_model query min_downloads model results)
          (fun e => logger WARNING (MsgErrorProcessing e) ;;; ret results) ;;
      search_loop query min_downloads rest results
  end.

Section Search.

(** The listing call of [huggingface_hub]. *)
Variable list_models : gmap string pyval -> listing.

(** [models = list_models(...)] with [search_params] as keyword arguments *)
Definition call_list_models (search_params : gmap string pyval) : M model_iter :=
  match list_models search_params with
  | ListRaise e => raise e
  | ListIter models => ret models
  end.

Definition search (a : Args.t) : M (list ModelRecord) :=
  let search_params := build_search_params a in
  logger INFO (MsgSearching search_params) ;;;
  try_except
    (models <- call_list_models search_params ;;
     results <- search_loop (Args.query a) (Args.min_downloads a) models [] ;;
     logger INFO (MsgFound (length results)) ;;;
     ret results)
    (fun e => logger ERROR (MsgSearchFailed e) ;;; ret []).

Definition search_by_name (name : string) (limit : Z) : M (list ModelRecord) :=
  search {| Args.query := Some name;
            Args.task := Args.task Args.defaults;
            Args.organization := Args.organization Args.defaults;
            Args.library := Args.library Args.defaults;
            Args.sort := Args.sort Args.defaults;
            Args.direction := Args.direction Args.defaults;
            Args.limit := limit;
            Args.min_downloads := Args.min_downloads Args.defaults;
            Args.created_after := Args.created_after Args.defaults |}.

Definition search_by_task (task : string) (limit : Z) (popular_only : bool)
    : M (list ModelRecord) :=
  let min_downloads := if popular_only then 1000 else 0 in
  search {| Args.query := Args.query Args.defaults;
            Args.task := Some task;
            Args.organization := Args.organization Args.defaults;
            Args.library := Args.library Args.defaults;
            Args.sort := Args.sort Args.defaults;
            Args.direction := Args.direction Args.defaults;
            Args.limit := limit;
            Args.min_downloads := min_downloads;
            Args.created_after := Args.created_after Args.defaults |}.

Definition search_by_org (org : string) (limit : Z) : M (list ModelRecord) :=
  search {| Args.query := Args.query Args.defaults;
            Args.task := Args.task Args.defaults;
            Args.organization := Some org;
            Args.library := Args.library Args.defaults;
            Args.sort := Args.sort Args.defaults;
            Args.direction := Args.direction Args.defaults;
            Args.limit := limit;
            Args.min_downloads := Args.min_downloads Args.defaults;
            Args.created_after := Args.created_after Args.defaults |}.

Definition get_popular (task : option string) (limit : Z) : M (list ModelRecord) :=
  search {| Args.query := Args.query Args.defaults;
            Args.task := task;
            Args.organization := Args.organization Args.defaults;
            Args.library := Args.library Args.defaults;
            Args.sort := "downloads";
            Args.direction := Args.direction Args.defaults;
            Args.limit := limit;
            Args.min_downloads := 10000;
            Args.created_after := Args.created_after Args.defaults |}.

Definition get_recent (task : option string) (limit : Z) : M (list ModelRecord) :=
  search {| Args.query := Args.query Args.defaults;
            Args.task := task;
            Args.organization := Args.organization Args.defaults;
            Args.library := Args.library Args.defaults;
            Args.sort := "created";
            Args.direction := Args.direction Args.defaults;
            Args.limit := limit;
            Args.min_downloads := Args.min_downloads Args.defaults;
            Args.created_after := Some "2024-01-01" |}.

End Search.

(** ** [HuggingFaceSearch.export_csv] *)

(** *** [csv.writer] with the default dialect

    Delimiter comma, the double quote as quote character, written twice
    inside a quoted field, minimal quoting, line terminator CR LF. *)

Definition dquote : ascii := ascii_of_nat 34.
Definition CR : ascii := ascii_of_nat 13.
Definition LF : ascii := ascii_of_nat 10.
Definition CRLF : string := String CR (String LF EmptyString).

(** The characters that make the writer quote a field. *)
Definition csv_special (c : ascii) : bool :=
  bool_decide (c = ","%char) || bool_decide (c = dquote)
  || bool_decide (c = CR) || bool_decide (c = LF).

Fixpoint needs_quote (s : string) : bool :=
  match s with
  | EmptyString => false
  | String c s' => csv_special c || needs_quote s'
  end.

(** Every quote character is written twice. *)
Fixpoint double_quotes (s : string) : string :=
  match s with
  | EmptyString => EmptyString
  | String c s' =>
      if bool_decide (c = dquote) then String c (String c (double_quotes s'))
      else String c (double_quotes s')
  end.

Definition csv_quoted (s : string) : string :=
  String dquote (double_quotes s +:+ String dquote EmptyString).

Definition csv_field (s : string) : string :=
  if needs_quote s then csv_quoted s else s.

(** The text of a cell: [None] is written as the empty string, a string as
    it is, any other value as [str] gives it. *)
Definition csv_text (v : pyval) : string :=
  match v with
  | PyNone => ""
  | v => py_str v
  end.

Fixpoint csv_join (fields : list string) : string :=
  match fields with
  | [] => ""
  | [f] => csv_field f
  | f :: rest => csv_field f +:+ "," +:+ csv_join rest
  end.

(** The line [writer.writerow(row)] writes. A record of one empty field is
    written as a pair of quotes. *)
Definition csv_line (row : list pyval) : string :=
  match map csv_text row with
  | [EmptyString] => csv_quoted "" +:+ CRLF
  | fields => csv_join fields +:+ CRLF
  end.

Definition writerow (filename : string) (row : list pyval) : M unit :=
  f_write filename (csv_line row).

(** *** The method *)

Definition csv_header : list pyval :=
  [PyStr "model_name"; PyStr "task"; PyStr "organization_url"].

Definition csv_row_of (model : ModelRecord) : list pyval :=
  [PyStr (model_name model); task model; PyStr (organization_url model)].

(** [for model in results: writer.writerow([...])] *)
Fixpoint write_models (filename : string) (results : list ModelRecord) : M unit :=
  match results with
  | [] => ret tt
  | model :: rest =>
      writerow filename (csv_row_of model) ;;;
      write_models filename rest
  end.

Definition export_csv (results : list ModelRecord) (filename : string) : M unit :=
  match results with
  | [] => print "❌ No results to export"
  | _ =>
      mkdir_parent filename ;;;
      open_w filename ;;;
      writerow filename csv_header ;;;
      write_models filename results ;;;
      print ("💾 Exported " +:+ py_str (PyInt (Z.of_nat (length results)))
               +:+ " models to: " +:+ filename)
  end.

(** ** Specification-level views *)

(** The objects an iteration yields before it ends or raises. *)
Fixpoint iter_models (models : model_iter) : list pyobj :=
  match models with
  | IterEnd => []
  | IterYield model rest => model :: iter_models rest
  | IterRaise _ => []
  end.

(** The exception an iteration ends with, if it raises. *)
Fixpoint iter_exc (models : model_iter) : option pyexc :=
  match models with
  | IterEnd => None
  | IterYield _ rest => iter_exc rest
  | IterRaise e => Some e
  end.

Definition listing_models (l : listing) : list pyobj :=
  match l with
  | ListRaise _ => []
  | ListIter models => iter_models models
  end.

(** The exception of the listing, raised by the call or while iterating. *)
Definition listing_exc (l : listing) : option pyexc :=
  match l with
  | ListRaise e => Some e
  | ListIter models => iter_exc models
  end.

(** The identifier [_format_model] works on: [getattr(model, 'id', str(model))]. *)
Abbreviation model_id_of model := (getattr model "id" (PyStr (obj_str model))).

(** The value [_format_model] returns, apart from its log. *)
Definition formatted (model : pyobj) : option ModelRecord :=
  match format_model_try model with
  | Ok r => r
  | Raise _ => None
  end.

(** [downloads >= min_downloads] holds, without a [TypeError]. *)
Definition passes_downloads (min_downloads : Z) (r : ModelRecord) : bool :=
  match py_ge (downloads r) min_downloads with
  | Ok b => b
  | Raise _ => false
  end.

(** [query] occurs in [model_name] or in [full_model_id], letter case
    apart. *)
Definition query_matches (query : string) (r : ModelRecord) : bool :=
  str_in (lower query) (lower (model_name r))
  || str_in (lower query) (lower (full_model_id r)).

(** An attribute is absent or [None]. *)
Definition absent_or_None (model : pyobj) (name : string) : Prop :=
  obj_attrs model !! name = None ∨ obj_attrs model !! name = Some PyNone.

(** An attribute is absent or has a false truth value. *)
Definition absent_or_falsy (model : pyobj) (name : string) : Prop :=
  match obj_attrs model !! name with
  | None => True
  | Some v => truthy v = false
  end.

(** *** Reading a CSV text back

    The grammar of RFC 4180 as a reader: fields separated by commas, records
    ended by CR LF, a quoted field holding any character with the quote
    written twice. [None] for a text outside the grammar. *)

Inductive rstate : Type :=
| Start (record_start : bool)   (* before a field, maybe the first of a record *)
| InField                       (* in an unquoted field *)
| InQuoted                      (* in a quoted field *)
| QuoteInQuoted                 (* after a quote in a quoted field *)
| AfterCR.                      (* after the CR that ends a record *)

Definition snoc_char (s : string) (c : ascii) : string :=
  s +:+ String c EmptyString.

Fixpoint csv_read_go (st : rstate) (field : string) (row : list string)
    (rows : list (list string)) (s : string) : option (list (list string)) :=
  match s with
  | EmptyString =>
      match st with
      | Start true => Some rows
      | _ => None
      end
  | String c s' =>
      match st with
      | Start b =>
          if bool_decide (c = dquote) then csv_read_go InQuoted "" row rows s'
          else if bool_decide (c = ","%char) then
            csv_read_go (Start false) "" (row ++ [""]) rows s'
          else if bool_decide (c = CR) then
            csv_read_go AfterCR "" [] (rows ++ [if b then row else row ++ [""]]) s'
          else if bool_decide (c = LF) then None
          else csv_read_go InField (String c "") row rows s'
      | InField =>
          if bool_decide (c = dquote) then None
          else if bool_decide (c = ","%char) then
            csv_read_go (Start false) "" (row ++ [field]) rows s'
          else if bool_decide (c = CR) then
            csv_read_go AfterCR "" [] (rows ++ [row ++ [field]]) s'
          else if bool_decide (c = LF) then None
          else csv_read_go InField (snoc_char field c) row rows s'
      | InQuoted =>
          if bool_decide (c = dquote) then csv_read_go QuoteInQuoted field row rows s'
          else csv_read_go InQuoted (snoc_char field c) row rows s'
      | QuoteInQuoted =>
          if bool_decide (c = dquote) then
            csv_read_go InQuoted (snoc_char field c) row rows s'
          else if bool_decide (c = ","%char) then
            csv_read_go (Start false) "" (row ++ [field]) rows s'
          else if bool_decide (c = CR) then
            csv_read_go AfterCR "" [] (rows ++ [row ++ [field]]) s'
          else None
      | AfterCR =>
          if bool_decide (c = LF) then csv_read_go (Start true) "" [] rows s'
          else None
      end
  end.

Definition csv_read (s : string) : option (list (list string)) :=
  csv_read_go (Start true) "" [] [] s.

(** The cells of the CSV file [export_csv] is to write. *)
Definition csv_cells (results : list ModelRecord) : list (list string) :=
  ["model_name"; "task"; "organization_url"]
    :: map (fun model => [model_name model; csv_text (task model);
                          organization_url model]) results.

(** The text of that file: the header line, then the line of each record. *)
Definition csv_text_of (results : list ModelRecord) : string :=
  csv_line csv_header
    +:+ foldr (fun model text => csv_line (csv_row_of model) +:+ text) "" results.

(** ** Sample data *)

(** What opening a directory for writing raises. *)
Definition is_a_directory : pyexc :=
  PyException "IsADirectoryError" "[Errno 21] Is a directory: '.'".

(** Nothing logged, printed or written yet; every name denotes a file of
    its own, any directory can be made, and any name can be opened as a
    file but the directory [.]. *)
Definition empty_world : world :=
  {| w_log := []; w_stdout := []; w_mkdirs := []; w_files := ∅;
     w_realpath := fun name => name;
     w_mkdir_error := fun _ => None;
     w_open_error :=
       fun name => if bool_decide (name = ".") then Some is_a_directory
                   else None |}.

Definition gpt2_obj : pyobj :=
  {| obj_attrs := {[ "id" := PyStr "openai/gpt-2";
                     "pipeline_tag" := PyStr "text-generation";
                     "downloads" := PyInt 5000;
                     "likes" := PyInt 12 ]};
     obj_str := "ModelInfo(id='openai/gpt-2')" |}.

Definition gpt2_record : ModelRecord :=
  {| model_name := "gpt-2";
     task := PyStr "text-generation";
     organization_url := "huggingface.co/openai";
     full_model_id := "openai/gpt-2";
     organization := "openai";
     downloads := PyInt 5000;
     likes := PyInt 12 |}.

(** An object with an identifier only. *)
Definition bare_obj (id : string) : pyobj :=
  {| obj_attrs := {[ "id" := PyStr id ]}; obj_str := "ModelInfo" |}.

Definition bare_record (id : string) : ModelRecord :=
  {| model_name := id;
     task := PyStr "other";
     organization_url := "huggingface.co";
     full_model_id := id;
     organization := "independent";
     downloads := PyInt 0;
     likes := PyInt 0 |}.

(** The record of the model [bert] of an organization named
    [independent]. *)
Definition independent_bert_record : ModelRecord :=
  {| model_name := "bert";
     task := PyStr "other";
     organization_url := "huggingface.co/independent";
     full_model_id := "independent/bert";
     organization := "independent";
     downloads := PyInt 0;
     likes := PyInt 0 |}.

(** A listing that yields the same objects whatever the parameters. *)
Definition list_of (models : list pyobj) : gmap string pyval -> listing :=
  fun _ => ListIter (foldr IterYield IterEnd models).

(** A listing that yields [models] and then raises [e]. *)
Definition list_then_raise (models : list pyobj) (e : pyexc)
    : gmap string pyval -> listing :=
  fun _ => ListIter (foldr IterYield (IterRaise e) models).

Definition with_query (q : string) : Args.t :=
  {| Args.query := Some q;
     Args.task := None;
     Args.organization := None;
     Args.library := None;
     Args.sort := "downloads";
     Args.direction := -1;
     Args.limit := 50;
     Args.min_downloads := 0;
     Args.created_after := None |}.

Definition with_min_downloads (n : Z) : Args.t :=
  {| Args.query := None;
     Args.task := None;
     Args.organization := None;
     Args.library := None;
     Args.sort := "downloads";
     Args.direction := -1;
     Args.limit := 50;
     Args.min_downloads := n;
     Args.created_after := None |}.

(** The records the methods of the class produce: a value of
    [_format_model], or an element of a list [search] returns. *)
Definition produced (r : ModelRecord) : Prop :=
  (∃ model w, (_format_model model w).1 = Ok (Some r))
  ∨ (∃ list_models a w results,
       (search list_models a w).1 = Ok results ∧ r ∈ results).

(** ** [HuggingFaceSearch.print_results] *)

(** *** Format specifications

    The widths count code points, as [len] does: in the UTF-8 text a
    [string] holds, the bytes that do not continue a character. *)

(** A byte that continues a character of several bytes. *)
Definition is_continuation (c : ascii) : bool :=
  let n := nat_of_ascii c in ((128 <=? n) && (n <? 192))%nat.

(** [len(s)] *)
Fixpoint py_len (s : string) : nat :=
  match s with
  | EmptyString => O
  | String c s' => if is_continuation c then py_len s' else S (py_len s')
  end.

(** [c * n] for a one-character string *)
Fixpoint repeat_char (c : ascii) (n : nat) : string :=
  match n with
  | O => EmptyString
  | S n' => String c (repeat_char c n')
  end.

(** [format(s, "<width")] on a string: padded with spaces on the right. *)
Definition ljust (width : nat) (s : string) : string :=
  s +:+ repeat_char " " (width - py_len s).

(** [format(s, ">width")]: padded with spaces on the left. *)
Definition rjust (width : nat) (s : string) : string :=
  repeat_char " " (width - py_len s) +:+ s.

(** The digits of a number, least significant first, with a comma after
    every third digit that has a digit after it; [n] digits of the current
    group are out. *)
Fixpoint commas_rev (digits : list ascii) (n : nat) : list ascii :=
  match digits with
  | [] => []
  | d :: digits' =>
      if (n =? 3)%nat then ","%char :: d :: commas_rev digits' 1
      else d :: commas_rev digits' (S n)
  end.

(** [format(z, ",")] on an [int]: the sign, then the digits in groups of
    three. *)
Definition group_thousands (z : Z) : string :=
  (if z <? 0 then "-" else "")
    +:+ string_of_list_ascii
          (rev (commas_rev (rev (list_ascii_of_string (py_str (PyInt (Z.abs z))))) 0)).

(** [format(v, ",")]: a number is grouped, a string has no such format,
    [None] has no format at all. A [bool] is formatted as the integer it
    is. *)
Definition format_comma (v : pyval) : res string :=
  match v with
  | PyInt z => Ok (group_thousands z)
  | PyBool b => Ok (if b then "1" else "0")
  | PyStr _ => Raise (ValueError "Cannot specify ',' with 's'.")
  | PyNone =>
      Raise (TypeError "unsupported format string passed to NoneType.__format__")
  end.

(** [format(v, "<width")] *)
Definition format_ljust (width : nat) (v : pyval) : res string :=
  match v with
  | PyStr s => Ok (ljust width s)
  | PyInt z => Ok (ljust width (py_str (PyInt z)))
  | PyBool b => Ok (ljust width (if b then "1" else "0"))
  | PyNone =>
      Raise (TypeError "unsupported format string passed to NoneType.__format__")
  end.

(** *** The method *)

(** The body of the loop for the [i]-th [model]. *)
Definition print_model_line (i : Z) (model : ModelRecord)
    (show_downloads : bool) : M unit :=
  downloads_str <-
    (if show_downloads then
       d <- lift (format_comma (downloads model)) ;;
       ret ("(" +:+ d +:+ " downloads)")
     else ret "") ;;
  task_str <- lift (format_ljust 25 (task model)) ;;
  print (rjust 2 (py_str (PyInt i)) +:+ ". "
           +:+ ljust 40 (model_name model) +:+ " | "
           +:+ task_str +:+ " | "
           +:+ organization_url model +:+ " " +:+ downloads_str).

(** [for i, model in enumerate(results, i): ...] *)
Fixpoint print_models (i : Z) (results : list ModelRecord)
    (show_downloads : bool) : M unit :=
  match results with
  | [] => ret tt
  | model :: rest =>
      print_model_line i model show_downloads ;;;
      print_models (i + 1) rest show_downloads
  end.

Definition print_results (results : list ModelRecord) (show_downloads : bool)
    : M unit :=
  match results with
  | [] => print "❌ No models found matching your criteria"
  | _ =>
      print (String LF ("🔍 Found " +:+ py_str (PyInt (Z.of_nat (length results)))
                          +:+ " models:")) ;;;
      print (repeat_char "-" 100) ;;;
      print_models 1 results show_downloads
  end.

(** ** [main], after the command line is parsed *)

(** The attributes of the parsed arguments. *)
Module Cli.
Record t : Type := {
  name : option string;
  task : option string;
  org : option string;
  library : option string;
  limit : Z;
  min_downloads : Z;
  popular : bool;
  recent : bool;
  sort : string;
  asc : bool;
  csv : option string;
  no_downloads : bool
}.
End Cli.

(** The arguments [main] calls [search] with. *)
Definition main_search_args (args : Cli.t) : Args.t :=
  let min_downloads := Cli.min_downloads args in
  let min_downloads :=
    if Cli.popular args then Z.max min_downloads 10000 else min_downloads in
  let created_after := if Cli.recent args then Some "2024-01-01" else None in
  let direction := if Cli.asc args then 1 else -1 in
  {| Args.query := Cli.name args;
     Args.task := Cli.task args;
     Args.organization := Cli.org args;
     Args.library := Cli.library args;
     Args.sort := Cli.sort args;
     Args.direction := direction;
     Args.limit := Cli.limit args;
     Args.min_downloads := min_downloads;
     Args.created_after := created_after |}.

(** [if args.csv: searcher.export_csv(results, args.csv)] *)
Definition main_export (results : list ModelRecord) (csv : option string)
    : M unit :=
  match csv with
  | Some filename =>
      if truthy (PyStr filename) then export_csv results filename else ret tt
  | None => ret tt
  end.

Definition main (list_models : gmap string pyval -> listing) (args : Cli.t)
    : M unit :=
  (* Perform search *)
  results <- search list_models (main_search_args args) ;;
  (* Display results *)
  print_results results (negb (Cli.no_downloads args)) ;;;
  (* Export if requested *)
  main_export results (Cli.csv args).

(** ** Views for the properties of the rest of the module *)

(** The value a filter is sent upstream with, if it is sent. *)
Definition filter_value (value : option string) : option pyval :=
  match value with
  | Some s => if truthy (PyStr s) then Some (PyStr s) else None
  | None => None
  end.

(** The keys [search] may send to the listing. *)
Definition search_param_keys : list string :=
  ["sort"; "direction"; "limit"; "full"; "task"; "author"; "library";
   "search"; "created_at"].

(** [a] with another [min_downloads]. *)
Definition set_min_downloads (a : Args.t) (n : Z) : Args.t :=
  {| Args.query := Args.query a;
     Args.task := Args.task a;
     Args.organization := Args.organization a;
     Args.library := Args.library a;
     Args.sort := Args.sort a;
     Args.direction := Args.direction a;
     Args.limit := Args.limit a;
     Args.min_downloads := n;
     Args.created_after := Args.created_after a |}.

(** From [w] to [w'] only log entries were added. *)
Definition log_extended (w w' : world) : Prop :=
  (∃ entries, w_log w' = w_log w ++ entries)
  ∧ w_stdout w' = w_stdout w
  ∧ w_mkdirs w' = w_mkdirs w
  ∧ w_files w' = w_files w
  ∧ w_realpath w' = w_realpath w
  ∧ w_mkdir_error w' = w_mkdir_error w
  ∧ w_open_error w' = w_open_error w.

(** The world after the parent directory of [filename] was made and the
    file opened for writing. *)
Definition opened (w : world) (filename : string) : world :=
  {| w_log := w_log w;
     w_stdout := w_stdout w;
     w_mkdirs := w_mkdirs w ++ [filename];
     w_files := <[w_realpath w filename := ""]> (w_files w);
     w_realpath := w_realpath w;
     w_mkdir_error := w_mkdir_error w;
     w_open_error := w_open_error w |}.

(** The parent directory of [filename] can be made and the file opened for
    writing. *)
Definition can_write (w : world) (filename : string) : Prop :=
  filename ≠ ""
  ∧ w_mkdir_error w filename = None
  ∧ w_open_error w filename = None.

(** A text of ASCII characters only: on such a text [lower], [strip] and
    [py_split] are the methods of [str]. *)
Fixpoint is_ascii (s : string) : bool :=
  match s with
  | EmptyString => true
  | String c s' => (nat_of_ascii c <? 128)%nat && is_ascii s'
  end.

(** A record [print_results] can format: its task is not [None] and, when
    the downloads are shown, its download count is a number. *)
Definition printable (show_downloads : bool) (r : ModelRecord) : Prop :=
  task r ≠ PyNone
  ∧ (show_downloads = true → is_Some (as_int (downloads r))).

Global Instance printable_dec show_downloads r :
  Decision (printable show_downloads r).
Proof. unfold printable. apply _. Defined.

(** The line [print_results] prints for the [i]-th record, when it can. *)
Definition model_line (i : Z) (model : ModelRecord) (show_downloads : bool)
    : string :=
  let downloads_str :=
    if show_downloads then
      match format_comma (downloads model) with
      | Ok d => "(" +:+ d +:+ " downloads)"
      | Raise _ => ""
      end
    else "" in
  let task_str :=
    match format_ljust 25 (task model) with
    | Ok s => s
    | Raise _ => ""
    end in
  rjust 2 (py_str (PyInt i)) +:+ ". "
    +:+ ljust 40 (model_name model) +:+ " | "
    +:+ task_str +:+ " | "
    +:+ organization_url model +:+ " " +:+ downloads_str.

(** The lines of the records [results], numbered from [i]. *)
Fixpoint model_lines (i : Z) (results : list ModelRecord)
    (show_downloads : bool) : list string :=
  match results with
  | [] => []
  | model :: rest =>
      model_line i model show_downloads
        :: model_lines (i + 1) rest show_downloads
  end.

(** An upstream exception that is not an [Exception]. *)
Definition keyboard_interrupt : pyexc := PyBaseException "KeyboardInterrupt" "".

Definition sample_cli : Cli.t :=
  {| Cli.name := None;
     Cli.task := None;
     Cli.org := None;
     Cli.library := None;
     Cli.limit := 50;
     Cli.min_downloads := 100;
     Cli.popular := true;
     Cli.recent := false;
     Cli.sort := "downloads";
     Cli.asc := false;
     Cli.csv := Some "out/models.csv";
     Cli.no_downloads := false |}.

(** A command that only adds log entries, from any world. *)
Definition log_only {A} (m : M A) : Prop :=
  ∀ w, log_extended w (m w).2.

(** A command line that exports to the directory [.]. *)
Definition sample_cli_dot : Cli.t :=
  {| Cli.name := None;
     Cli.task := None;
     Cli.org := None;
     Cli.library := None;
     Cli.limit := 50;
     Cli.min_downloads := 0;
     Cli.popular := false;
     Cli.recent := false;
     Cli.sort := "downloads";
     Cli.asc := false;
     Cli.csv := Some ".";
     Cli.no_downloads := false |}.

(** A command line that shows and exports what passes a floor of 100. *)
Definition sample_cli_100 : Cli.t :=
  {| Cli.name := None;
     Cli.task := None;
     Cli.org := None;
     Cli.library := None;
     Cli.limit := 50;
     Cli.min_downloads := 100;
     Cli.popular := false;
     Cli.recent := false;
     Cli.sort := "downloads";
     Cli.asc := false;
     Cli.csv := Some "out/models.csv";
     Cli.no_downloads := false |}.

Definition popular_obj : pyobj :=
  {| obj_attrs := {[ "id" := PyStr "google/bert";
                     "pipeline_tag" := PyStr "fill-mask";
                     "downloads" := PyInt 250000 ]};
     obj_str := "ModelInfo(id='google/bert')" |}.

Definition popular_record : ModelRecord :=
  {| model_name := "bert";
     task := PyStr "fill-mask";
     organization_url := "huggingface.co/google";
     full_model_id := "google/bert";
     organization := "google";
     downloads := PyInt 250000;
     likes := PyInt 0 |}.

(** A record whose download count is a string. *)
Definition unprintable_record : ModelRecord :=
  {| model_name := "x";
     task := PyStr "other";
     organization_url := "huggingface.co";
     full_model_id := "x";
     organization := "independent";
     downloads := PyStr "many";
     likes := PyInt 0 |}.

(** The world with more lines on the standard output. *)
Definition printed (w : world) (lines : list string) : world :=
  {| w_log := w_log w;
     w_stdout := w_stdout w ++ lines;
     w_mkdirs := w_mkdirs w;
     w_files := w_files w;
     w_realpath := w_realpath w;
     w_mkdir_error := w_mkdir_error w;
     w_open_error := w_open_error w |}.

(** The lines [print_results] prints for [results]. *)
Definition results_lines (results : list ModelRecord) (show_downloads : bool)
    : list string :=
  match results with
  | [] => ["❌ No models found matching your criteria"]
  | _ =>
      String LF ("🔍 Found " +:+ py_str (PyInt (Z.of_nat (length results)))
                   +:+ " models:")
        :: repeat_char "-" 100
        :: model_lines 1 results show_downloads
  end.

(** ** [interactive_mode] *)

(** *** The string methods of the command loop

    As for [lower], on ASCII: the white space is the ASCII white space of
    [str.isspace]. *)

Definition is_space (c : ascii) : bool :=
  let n := nat_of_ascii c in
  ((9 <=? n) && (n <=? 13) || (28 <=? n) && (n <=? 32))%nat.

(** [s.lstrip()] *)
Fixpoint lstrip (s : string) : string :=
  match s with
  | EmptyString => EmptyString
  | String c s' => if is_space c then lstrip s' else s
  end.

(** [s.rstrip()] *)
Fixpoint rstrip (s : string) : string :=
  match s with
  | EmptyString => EmptyString
  | String c s' =>
      match rstrip s' with
      | EmptyString => if is_space c then EmptyString else String c EmptyString
      | r => String c r
      end
  end.

(** [s.strip()] *)
Definition strip (s : string) : string := rstrip (lstrip s).

(** [s.split()]: the words between runs of white space; [cur] is the word
    being read. *)
Fixpoint split_go (cur : string) (s : string) : list string :=
  match s with
  | EmptyString => if bool_decide (cur = "") then [] else [cur]
  | String c s' =>
      if is_space c then
        if bool_decide (cur = "") then split_go "" s'
        else cur :: split_go "" s'
      else split_go (cur +:+ String c EmptyString) s'
  end.

Definition py_split (s : string) : list string := split_go "" s.

(** *** The terminal

    What the user does at a prompt: a line is entered, or the read is
    interrupted, or the input is closed. *)
Inductive input_event : Type :=
| Line (text : string)
| CtrlC
| CtrlD.

(** The outcome of an interactive command: as [res], or the program is
    waiting at a prompt and no event is left. *)
Inductive ires (A : Type) : Type :=
| IOk (a : A)
| IRaise (e : pyexc)
| IBlocked.
Global Arguments IOk {A} a.
Global Arguments IRaise {A} e.
Global Arguments IBlocked {A}.

(** Interactive commands: from the events to come and a world to an
    outcome, the events left and the world after. *)
Definition IM (A : Type) : Type :=
  list input_event -> world -> ires A * list input_event * world.

Definition iret {A} (a : A) : IM A := fun script w => (IOk a, script, w).

Definition ibind {A B} (m : IM A) (k : A -> IM B) : IM B :=
  fun script w =>
    match m script w with
    | (IOk a, script', w') => k a script' w'
    | (IRaise e, script', w') => (IRaise e, script', w')
    | (IBlocked, script', w') => (IBlocked, script', w')
    end.

Notation "x <~ m ;; k" := (ibind m (fun x => k))
  (at level 100, m at next level, right associativity).
Notation "m ;;~ k" := (ibind m (fun _ => k))
  (at level 100, right associativity).

(** A command that reads nothing. *)
Definition ilift {A} (m : M A) : IM A :=
  fun script w =>
    match m w with
    | (Ok a, w') => (IOk a, script, w')
    | (Raise e, w') => (IRaise e, script, w')
    end.

Definition KeyboardInterrupt : pyexc := PyBaseException "KeyboardInterrupt" "".
Definition EOFError : pyexc := PyException "EOFError" "EOF when reading a line".

(** [input(prompt)]: the prompt is written to the standard output, then the
    next event decides. *)
Definition input (prompt : string) : IM string :=
  fun script w =>
    let w' := printed w [prompt] in
    match script with
    | [] => (IBlocked, [], w')
    | Line text :: rest => (IOk text, rest, w')
    | CtrlC :: rest => (IRaise KeyboardInterrupt, rest, w')
    | CtrlD :: rest => (IRaise EOFError, rest, w')
    end.

(** [isinstance(e, KeyboardInterrupt)] *)
Definition is_KeyboardInterrupt (e : pyexc) : bool :=
  match e with
  | PyBaseException cls _ => bool_decide (cls = "KeyboardInterrupt")
  | PyException _ _ => false
  end.

(** [str(e)]: the message. *)
Definition exc_str (e : pyexc) : string :=
  match e with
  | PyException _ msg => msg
  | PyBaseException _ msg => msg
  end.

(** [try: body except KeyboardInterrupt: ... except Exception as e: ...] *)
Definition try_interactive {A} (body : IM A) (on_interrupt : IM A)
    (on_exception : pyexc -> IM A) : IM A :=
  fun script w =>
    match body script w with
    | (IRaise e, script', w') =>
        if is_KeyboardInterrupt e then on_interrupt script' w'
        else if is_Exception e then on_exception e script' w'
        else (IRaise e, script', w')
    | r => r
    end.

(** *** The function *)

(** Several [print] calls in a row. *)
Fixpoint print_all (lines : list string) : M unit :=
  match lines with
  | [] => ret tt
  | line :: rest => print line ;;; print_all rest
  end.

Definition banner_lines : list string :=
  ["🔍 Hugging Face Model Search Tool";
   repeat_char "=" 50;
   "Commands:";
   "  search <name>     - Search by model name";
   "  task <task>       - Search by task type";
   "  org <org>         - Search by organization";
   "  popular [task]    - Get popular models";
   "  recent [task]     - Get recent models";
   "  help             - Show this help";
   "  quit             - Exit";
   ""].

Definition help_lines : list string :=
  [String LF "Available commands:";
   "  search bert       # Search for BERT models";
   "  task text-generation  # Get text generation models";
   "  org microsoft     # Get Microsoft models";
   "  popular           # Most downloaded models";
   "  recent            # Recent models"].

Definition main_prompt : string := "🔍 > ".
Definition export_prompt : string := String LF "💾 Export to CSV? [y/N]: ".
Definition unknown_command_line : string :=
  "❌ Unknown command. Type 'help' for available commands.".
Definition goodbye_line : string := String LF "👋 Goodbye!".

(** The truth value of [arg], a word or [None]. *)
Definition arg_truthy (arg : option string) : bool :=
  match arg with
  | Some a => truthy (PyStr a)
  | None => false
  end.

(** [arg or 'all'] *)
Definition arg_or_all (arg : option string) : string :=
  match arg with
  | Some a => if truthy (PyStr a) then a else "all"
  | None => "all"
  end.

(** [f"hf_search_results_{cmd}_{arg or 'all'}.csv"] *)
Definition export_filename (cmd : string) (arg : option string) : string :=
  "hf_search_results_" +:+ cmd +:+ "_" +:+ arg_or_all arg +:+ ".csv".

(** What leaves an iteration of the loop. *)
Inductive ctl : Type := Break | Continue.

(** How the loop ended: by [break], or the bound on its iterations was
    reached first. *)
Inductive loop_end : Type := Ended | Unfinished.

Section Interactive.

Variable list_models : gmap string pyval -> listing.

(** The chain of tests on [cmd] and [arg]: the search to run, or none for an
    unknown command. *)
Definition dispatch (cmd : string) (arg : option string)
    : option (M (list ModelRecord)) :=
  if bool_decide (cmd = "search") && arg_truthy arg then
    Some (search_by_name list_models (default "" arg) 20)
  else if bool_decide (cmd = "task") && arg_truthy arg then
    Some (search_by_task list_models (default "" arg) 50 true)
  else if bool_decide (cmd = "org") && arg_truthy arg then
    Some (search_by_org list_models (default "" arg) 50)
  else if bool_decide (cmd = "popular") then
    Some (get_popular list_models arg 50)
  else if bool_decide (cmd = "recent") then
    Some (get_recent list_models arg 50)
  else None.

(** Ask if user wants to export *)
Definition ask_export (results : list ModelRecord) (cmd : string)
    (arg : option string) : IM unit :=
  if negb (bool_decide (results = [])) then
    export <~ input export_prompt ;;
    let export := strip (lower export) in
    if bool_decide (export ∈ ["y"; "yes"]) then
      ilift (export_csv results (export_filename cmd arg))
    else iret tt
  else iret tt.

(** The iteration after a known command: the search, the results, the
    question, an empty line. *)
Definition run_search (call : M (list ModelRecord)) (cmd : string)
    (arg : option string) : IM ctl :=
  results <~ ilift call ;;
  ilift (print_results results true) ;;~
  ask_export results cmd arg ;;~
  ilift (print "") ;;~
  iret Continue.

(** The iteration after the line was read and stripped. *)
Definition run_command (command : string) : IM ctl :=
  if negb (truthy (PyStr command))
     || bool_decide (lower command ∈ ["quit"; "exit"; "q"]) then
    iret Break
  else if bool_decide (lower command ∈ ["help"; "h"]) then
    ilift (print_all help_lines) ;;~ iret Continue
  else
    match py_split command with
    | [] => iret Continue
    | part0 :: more =>
        let cmd := lower part0 in
        let arg := head more in
        match dispatch cmd arg with
        | None => ilift (print unknown_command_line) ;;~ iret Continue
        | Some call => run_search call cmd arg
        end
    end.

(** The body of the [try] in the loop. *)
Definition interactive_try : IM ctl :=
  command <~ input main_prompt ;;
  run_command (strip command).

(** One iteration of [while True], with the handlers. *)
Definition interactive_iteration : IM ctl :=
  try_interactive interactive_try
    (ilift (print goodbye_line) ;;~ iret Break)
    (fun e => ilift (print ("❌ Error: " +:+ exc_str e)) ;;~ iret Continue).

(** At most [fuel] iterations of the loop. *)
Fixpoint interactive_loop (fuel : nat) : IM loop_end :=
  match fuel with
  | O => iret Unfinished
  | S fuel' =>
      c <~ interactive_iteration ;;
      match c with
      | Break => iret Ended
      | Continue => interactive_loop fuel'
      end
  end.

(** Every iteration reads an event or waits for one: one iteration more
    than there are events is enough. *)
Definition interactive_mode : IM loop_end :=
  fun script =>
    (ilift (print_all banner_lines) ;;~
     interactive_loop (S (length script))) script.

End Interactive.

(** ** Views for the properties of the command loop *)

(** An interactive command that leaves no more events than it found. *)
Definition consumes {A} (m : IM A) : Prop :=
  ∀ script w, (length (m script w).1.2 ≤ length script)%nat.

(** An outcome a session can end with: the loop was left, or the program
    waits at a prompt, or an exception goes through that is neither an
    [Exception] nor a [KeyboardInterrupt]. *)
Definition session_end (r : ires loop_end) : Prop :=
  match r with
  | IOk Ended => True
  | IOk Unfinished => False
  | IBlocked => True
  | IRaise e => is_Exception e = false ∧ is_KeyboardInterrupt e = false
  end.

(** A command line that neither ends the session nor asks for help. *)
Definition is_search_line (command : string) : Prop :=
  command ≠ ""
  ∧ (lower command ∉ ["quit"; "exit"; "q"])
  ∧ (lower command ∉ ["help"; "h"]).

(** * Properties *)

(** ** The embedding at work *)

Example lower_mixed_case : lower "BERT-Base_v2" = "bert-base_v2".
Proof. reflexivity. Qed.

Example split_1_two_slashes : split_1 "/" "a/b/c" = ["a"; "b/c"].
Proof. reflexivity. Qed.

Example str_in_cases :
  str_in "ert" "bert" = true ∧ str_in "" "bert" = true
  ∧ str_in "bert" "ber" = false.
Proof. by repeat split. Qed.

Example py_str_negative : py_str (PyInt (-42)) = "-42".
Proof. reflexivity. Qed.

(** A cell with a comma is quoted, a number is written by [str], [None] as
    nothing. *)
Example csv_line_quoting :
  csv_line [PyStr "a,b"; PyInt 5; PyNone]
  = String dquote ("a,b" +:+ String dquote (",5," +:+ CRLF)).
Proof. reflexivity. Qed.

(** An identifier that is not a string: the [TypeError] of the membership
    test is logged and the method returns [None]. *)
Example format_model_int_id :
  _format_model {| obj_attrs := {[ "id" := PyInt 7 ]}; obj_str := "m" |}
    empty_world
  = (Ok None,
     (logger WARNING
        (MsgErrorFormatting
           (TypeError "argument of type 'int' is not iterable"))
        empty_world).2).
Proof. reflexivity. Qed.

(** An object without [id]: the identifier is [str(model)]. *)
Example format_model_no_id :
  (_format_model {| obj_attrs := ∅; obj_str := "org/name" |} empty_world).1
  = Ok (Some {| model_name := "name";
                task := PyStr "other";
                organization_url := "huggingface.co/org";
                full_model_id := "org/name";
                organization := "org";
                downloads := PyInt 0;
                likes := PyInt 0 |}).
Proof. reflexivity. Qed.

(** A record whose download count is not a number is dropped: the
    [TypeError] of the comparison is handled in the loop. *)
Example search_skips_bad_downloads :
  (search (list_of [{| obj_attrs := {[ "id" := PyStr "x/y";
                                       "downloads" := PyStr "many" ]};
                       obj_str := "m" |};
                    gpt2_obj])
     Args.defaults empty_world).1
  = Ok [gpt2_record].
Proof. vm_compute. reflexivity. Qed.

(** The padding counts code points, not bytes. *)
Example ljust_code_points :
  py_len "modèle-é" = 8%nat
  ∧ ljust 10 "modèle-é" = "modèle-é" +:+ "  ".
Proof. by split. Qed.

(** The empty name is no file: nothing is written. *)
Example export_csv_empty_name :
  export_csv [gpt2_record] "" empty_world
  = (Raise (FileNotFoundError "[Errno 2] No such file or directory: ''"),
     (mkdir_parent "" empty_world).2).
Proof. reflexivity. Qed.

(** Only the filters that are set are sent to the listing. *)
Example search_params_of_query :
  build_search_params (with_query "bert") !! "search" = Some (PyStr "bert")
  ∧ build_search_params (with_query "") !! "search" = None
  ∧ build_search_params (with_query "bert") !! "task" = None
  ∧ build_search_params (with_query "bert") !! "full" = Some (PyBool true).
Proof. by repeat split. Qed.

(** ** The monad *)

Lemma bind_ok {A B} (m : M A) (k : A -> M B) (w : world) (a : A) :
  (m w).1 = Ok a → bind m k w = k a (m w).2.
Proof. unfold bind. destruct (m w) as [r w']. cbn. by intros ->. Qed.

Lemma bind_raise {A B} (m : M A) (k : A -> M B) (w : world) (e : pyexc) :
  (m w).1 = Raise e → bind m k w = (Raise e, (m w).2).
Proof. unfold bind. destruct (m w) as [r w']. cbn. by intros ->. Qed.

Lemma try_except_ok {A} (body : M A) (handler : pyexc -> M A) w a :
  (body w).1 = Ok a → try_except body handler w = (Ok a, (body w).2).
Proof. unfold try_except. destruct (body w) as [r w']. cbn. by intros ->. Qed.

Lemma try_except_caught {A} (body : M A) (handler : pyexc -> M A) w e :
  (body w).1 = Raise e → is_Exception e = true →
  try_except body handler w = handler e (body w).2.
Proof.
  unfold try_except. destruct (body w) as [r w']. cbn. by intros -> ->.
Qed.

Lemma try_except_passed {A} (body : M A) (handler : pyexc -> M A) w e :
  (body w).1 = Raise e → is_Exception e = false →
  try_except body handler w = (Raise e, (body w).2).
Proof.
  unfold try_except. destruct (body w) as [r w']. cbn. by intros -> ->.
Qed.

(** ** [_format_model] and its value *)

(** The exceptions of the body are instances of [Exception]. *)
Lemma format_model_try_exc model e :
  format_model_try model = Raise e → is_Exception e = true.
Proof.
  unfold format_model_try. intros He.
  repeat case_match; by simplify_eq.
Qed.

(** The method returns: the record, or [None]; it never raises. *)
Lemma format_model_fst model w :
  (_format_model model w).1 = Ok (formatted model).
Proof.
  unfold _format_model, formatted.
  destruct (format_model_try model) as [r | e] eqn:Hf.
  - by rewrite (try_except_ok _ _ _ r).
  - rewrite (try_except_caught _ _ _ e); [done | done |].
    by apply (format_model_try_exc model).
Qed.

(** ** The search loop *)

Lemma py_ge_exc v n e : py_ge v n = Raise e → is_Exception e = true.
Proof. unfold py_ge. destruct (as_int v); by intros [= <-]. Qed.

(** The body of the inner [try]: the record is appended when it is formatted
    and its download count reaches the minimum; the query changes nothing. *)
Lemma search_try_model_fst query min_downloads model results w :
  (search_try_model query min_downloads model results w).1 =
  match formatted model with
  | None => Ok results
  | Some model_data =>
      match py_ge (downloads model_data) min_downloads with
      | Raise e => Raise e
      | Ok ge => Ok (if ge then results ++ [model_data] else results)
      end
  end.
Proof.
  unfold search_try_model.
  rewrite (bind_ok _ _ _ _ (format_model_fst model w)).
  destruct (formatted model) as [md |]; [| done].
  destruct (py_ge (downloads md) min_downloads) as [ge | e] eqn:Hge.
  - rewrite (bind_ok _ _ _ ge) by done. by repeat case_match.
  - by rewrite (bind_raise _ _ _ e).
Qed.

(** One iteration with its handler. *)
Lemma search_iteration_fst query min_downloads model results handler w :
  (∀ e w', (handler e w').1 = Ok results) →
  (try_except (search_try_model query min_downloads model results) handler w).1
  = Ok (results ++ List.filter (passes_downloads min_downloads)
                     (option_list (formatted model))).
Proof.
  intros Hh.
  pose proof (search_try_model_fst query min_downloads model results w) as Hb.
  destruct (formatted model) as [md |].
  - change (option_list (Some md)) with [md]. cbn [List.filter].
    unfold passes_downloads.
    destruct (py_ge (downloads md) min_downloads) as [ge | e] eqn:Hge.
    + rewrite (try_except_ok _ _ _ _ Hb). destruct ge; [done |].
      by rewrite app_nil_r.
    + rewrite (try_except_caught _ _ _ _ Hb (py_ge_exc _ _ _ Hge)).
      by rewrite Hh, app_nil_r.
  - rewrite (try_except_ok _ _ _ _ Hb). cbn. by rewrite app_nil_r.
Qed.

Lemma search_loop_fst query min_downloads models :
  ∀ results w,
    (search_loop query min_downloads models results w).1 =
    match iter_exc models with
    | Some e => Raise e
    | None =>
        Ok (results ++
            List.filter (passes_downloads min_downloads)
              (omap formatted (iter_models models)))
    end.
Proof.
  induction models as [| model rest IH | e]; intros results w;
    cbn [search_loop iter_exc iter_models].
  - by rewrite app_nil_r.
  - rewrite (bind_ok _ _ _ _
               (search_iteration_fst query min_downloads model results
                  (fun e => logger WARNING (MsgErrorProcessing e) ;;; ret results)
                  w (fun e w' => eq_refl))).
    rewrite IH. destruct (iter_exc rest); [done |].
    rewrite <- app_assoc. do 2 f_equal.
    cbn [omap list_omap]. destruct (formatted model) as [md |]; [| done].
    change (option_list (Some md)) with [md]. cbn [List.filter].
    by destruct (passes_downloads _ md).
  - done.
Qed.

Section SearchProperties.

Variable list_models : gmap string pyval -> listing.

Lemma call_list_models_fst search_params w :
  (call_list_models list_models search_params w).1 =
  match list_models search_params with
  | ListRaise e => Raise e
  | ListIter models => Ok models
  end.
Proof. unfold call_list_models. by destruct (list_models search_params). Qed.

(** The body of the outer [try]. *)
Lemma search_body_fst query min_downloads search_params w :
  ((models <- call_list_models list_models search_params ;;
    results <- search_loop query min_downloads models [] ;;
    logger INFO (MsgFound (length results)) ;;;
    ret results) w).1 =
  match listing_exc (list_models search_params) with
  | Some e => Raise e
  | None =>
      Ok (List.filter (passes_downloads min_downloads)
            (omap formatted (listing_models (list_models search_params))))
  end.
Proof.
  pose proof (call_list_models_fst search_params w) as Hc.
  destruct (list_models search_params) as [e | models];
    cbn [listing_exc listing_models].
  - by rewrite (bind_raise _ _ _ _ Hc).
  - rewrite (bind_ok _ _ _ _ Hc).
    match goal with
    | |- context [bind ?m ?k ?w'] =>
        pose proof (search_loop_fst query min_downloads models [] w') as Hl
    end.
    destruct (iter_exc models) as [e |].
    + by rewrite (bind_raise _ _ _ _ Hl).
    + by rewrite (bind_ok _ _ _ _ Hl).
Qed.

(** What [search] returns: the empty list when the listing raises an
    [Exception], else the formatted objects whose download count reaches
    the minimum. Another exception of the listing goes through. *)
Lemma search_fst a w :
  (search list_models a w).1 =
  match listing_exc (list_models (build_search_params a)) with
  | Some e => if is_Exception e then Ok [] else Raise e
  | None =>
      Ok (List.filter (passes_downloads (Args.min_downloads a))
            (omap formatted (listing_models (list_models (build_search_params a)))))
  end.
Proof.
  unfold search. rewrite (bind_ok _ _ _ tt) by done.
  match goal with
  | |- context [try_except ?b ?h ?w'] =>
      pose proof (search_body_fst (Args.query a) (Args.min_downloads a)
                    (build_search_params a) w') as Hb
  end.
  destruct (listing_exc _) as [e |].
  - destruct (is_Exception e) eqn:He.
    + by rewrite (try_except_caught _ _ _ _ Hb He).
    + by rewrite (try_except_passed _ _ _ _ Hb He).
  - by rewrite (try_except_ok _ _ _ _ Hb).
Qed.

End SearchProperties.

(** ** The query filter *)

(** The list [search] returns does not depend on [query], as long as the
    listing is the same. *)
Lemma search_ignores_query list_models a a' w w' :
  list_models (build_search_params a) = list_models (build_search_params a') →
  Args.min_downloads a = Args.min_downloads a' →
  (search list_models a w).1 = (search list_models a' w').1.
Proof. intros Hl Hm. by rewrite !search_fst, Hl, Hm. Qed.

(** C1 (the code departs from it): with [query="bert"] and a listing that
    yields the model [openai/gpt-2], [search] returns the record of that
    model, although [bert] occurs neither in its [model_name] nor in its
    [full_model_id]: the record is appended before the query is looked at. *)
Theorem search_query_filter_not_applied :
  (search (list_of [gpt2_obj]) (with_query "bert") empty_world).1
  = Ok [gpt2_record]
  ∧ query_matches "bert" gpt2_record = false.
Proof. split; vm_compute; reflexivity. Qed.

(** ** The download filter *)

Lemma passes_downloads_spec min_downloads r :
  passes_downloads min_downloads r = true →
  ∃ d, as_int (downloads r) = Some d ∧ min_downloads ≤ d.
Proof.
  unfold passes_downloads, py_ge.
  destruct (as_int (downloads r)) as [d |]; [| done].
  intros Hle. exists d. split; [done | lia].
Qed.

(** The list [search] returns, when it returns one. *)
Lemma search_returns list_models a w results :
  (search list_models a w).1 = Ok results →
  results = [] ∨
  results = List.filter (passes_downloads (Args.min_downloads a))
              (omap formatted
                 (listing_models (list_models (build_search_params a)))).
Proof.
  rewrite search_fst. destruct (listing_exc _) as [e |].
  - destruct (is_Exception e); [| done]. intros [= <-]. by left.
  - intros [= <-]. by right.
Qed.

(** C2: every record of the list [search] returns has a download count
    that is a number not below [min_downloads]. *)
Theorem search_min_downloads (list_models : gmap string pyval -> listing)
    (a : Args.t) (w : world) (results : list ModelRecord) (r : ModelRecord) :
  (search list_models a w).1 = Ok results →
  r ∈ results →
  ∃ d, as_int (downloads r) = Some d ∧ Args.min_downloads a ≤ d.
Proof.
  intros [-> | ->]%search_returns; [by intros ?%not_elem_of_nil |].
  rewrite list_elem_of_In, filter_In. intros [_ Hp].
  by apply passes_downloads_spec.
Qed.

Lemma search_min_downloads_witness :
  ∃ d, as_int (downloads gpt2_record) = Some d ∧ 1000 ≤ d.
Proof.
  apply (search_min_downloads (list_of [bare_obj "tiny"; gpt2_obj])
           (with_min_downloads 1000) empty_world [gpt2_record] gpt2_record).
  - vm_compute. reflexivity.
  - apply list_elem_of_here.
Defined.

(** ** Failure of the listing *)

(** C3: when the listing raises an exception (an instance of [Exception]),
    in the call or while it is iterated, [search] returns the empty list,
    the exception does not reach the caller, and the last entry of the log
    is the error. *)
Theorem search_upstream_failure (list_models : gmap string pyval -> listing)
    (a : Args.t) (w : world) (e : pyexc) :
  listing_exc (list_models (build_search_params a)) = Some e →
  is_Exception e = true →
  (search list_models a w).1 = Ok []
  ∧ last (w_log (search list_models a w).2) = Some (ERROR, MsgSearchFailed e).
Proof.
  intros Hl He. split; [by rewrite search_fst, Hl, He |].
  unfold search. rewrite (bind_ok _ _ _ tt) by done.
  match goal with
  | |- context [try_except ?b ?h ?w'] =>
      pose proof (search_body_fst list_models (Args.query a)
                    (Args.min_downloads a) (build_search_params a) w') as Hb
  end.
  rewrite Hl in Hb. rewrite (try_except_caught _ _ _ _ Hb He).
  cbn. by rewrite last_snoc.
Qed.

Lemma search_upstream_failure_witness :
  (search (list_then_raise [gpt2_obj] (PyException "ConnectionError" "timed out"))
     Args.defaults empty_world).1 = Ok []
  ∧ last (w_log (search (list_then_raise [gpt2_obj]
                           (PyException "ConnectionError" "timed out"))
                   Args.defaults empty_world).2)
    = Some (ERROR, MsgSearchFailed (PyException "ConnectionError" "timed out")).
Proof.
  apply (search_upstream_failure
           (list_then_raise [gpt2_obj] (PyException "ConnectionError" "timed out"))
           Args.defaults empty_world
           (PyException "ConnectionError" "timed out")); reflexivity.
Defined.

(** An exception that is not an instance of [Exception], such as
    [KeyboardInterrupt], goes through [search] to the caller. *)
Lemma search_lets_through list_models a w e :
  listing_exc (list_models (build_search_params a)) = Some e →
  is_Exception e = false →
  (search list_models a w).1 = Raise e.
Proof. intros Hl He. by rewrite search_fst, Hl, He. Qed.

(** ** Order and origin of the results *)

Lemma filter_sublist {A} (p : A -> bool) (l : list A) :
  List.filter p l `sublist_of` l.
Proof.
  induction l as [| x l IH]; cbn; [constructor |].
  destruct (p x); by constructor.
Qed.

Lemma omap_length_le {A B} (f : A -> option B) (l : list A) :
  (length (omap f l) ≤ length l)%nat.
Proof.
  induction l as [| x l IH]; cbn; [lia |].
  destruct (f x); cbn; lia.
Qed.

Lemma search_sublist_formatted list_models a w results :
  (search list_models a w).1 = Ok results →
  results `sublist_of`
    omap formatted (listing_models (list_models (build_search_params a))).
Proof.
  intros [-> | ->]%search_returns.
  - apply sublist_nil_l.
  - apply filter_sublist.
Qed.

(** C10: [formatted] is the record [_format_model] returns for an object;
    the list [search] returns is a subsequence, in order, of the formatted
    records of the objects the listing yields, and its length is at most
    the number of those objects. *)
Theorem search_subsequence (list_models : gmap string pyval -> listing)
    (a : Args.t) (w : world) (results : list ModelRecord) :
  (search list_models a w).1 = Ok results →
  let upstream := listing_models (list_models (build_search_params a)) in
  (∀ model w', (_format_model model w').1 = Ok (formatted model))
  ∧ results `sublist_of` omap formatted upstream
  ∧ (length results ≤ length upstream)%nat.
Proof.
  intros Hs upstream.
  pose proof (search_sublist_formatted list_models a w results Hs) as Hsub.
  split; [apply format_model_fst |]. split; [done |].
  etrans; [by apply sublist_length | apply omap_length_le].
Qed.

Lemma search_subsequence_witness :
  [gpt2_record] `sublist_of` omap formatted [bare_obj "tiny"; gpt2_obj]
  ∧ (length [gpt2_record] ≤ length [bare_obj "tiny"; gpt2_obj])%nat.
Proof.
  apply (search_subsequence (list_of [bare_obj "tiny"; gpt2_obj])
           (with_min_downloads 1000) empty_world [gpt2_record]).
  vm_compute. reflexivity.
Defined.

(** ** Splitting at the first separator *)

Lemma split_1_absent sep s : char_in sep s = false → split_1 sep s = [s].
Proof.
  induction s as [| c s IH]; cbn; [done |].
  intros [Hc Hs]%orb_false_elim. rewrite Hc, (IH Hs). done.
Qed.

Lemma append_nil_l (s : string) : "" +:+ s = s.
Proof. reflexivity. Qed.

Lemma append_cons (c : ascii) (a b : string) :
  String c a +:+ b = String c (a +:+ b).
Proof. reflexivity. Qed.

Lemma split_1_first sep a b :
  char_in sep a = false → split_1 sep (a +:+ String sep b) = [a; b].
Proof.
  induction a as [| c a IH]; rewrite ?append_nil_l, ?append_cons; cbn.
  - intros _. by rewrite bool_decide_eq_true_2.
  - intros [Hc Ha]%orb_false_elim. by rewrite Hc, (IH Ha).
Qed.

(** A string that holds the separator is cut at its first occurrence. *)
Lemma char_in_cut sep s :
  char_in sep s = true →
  ∃ a b, s = a +:+ String sep b ∧ char_in sep a = false.
Proof.
  induction s as [| c s IH]; cbn; [done |].
  destruct (bool_decide (c = sep)) eqn:Hc; cbn.
  - intros _. apply bool_decide_eq_true_1 in Hc as ->. by exists "", s.
  - intros (a & b & -> & Ha)%IH. exists (String c a), b.
    rewrite append_cons. cbn. by rewrite Hc, Ha.
Qed.

Lemma char_in_app_sep sep a b : char_in sep (a +:+ String sep b) = true.
Proof.
  induction a as [| c a IH]; rewrite ?append_nil_l, ?append_cons; cbn.
  - by rewrite bool_decide_eq_true_2.
  - rewrite IH. apply orb_true_r.
Qed.

(** ** [_format_model]: the record of an identifier *)

Lemma truthy_str s : s ≠ "" → truthy (PyStr s) = true.
Proof. intros Hs. cbn. by rewrite bool_decide_eq_false_2. Qed.

Lemma format_model_try_slash model org name :
  char_in "/" org = false →
  model_id_of model = PyStr (org +:+ String "/" name) →
  format_model_try model = Ok (Some {|
    model_name := name;
    task := py_or (getattr model "pipeline_tag" PyNone) (PyStr "other");
    organization_url := "huggingface.co/" +:+ org;
    full_model_id := org +:+ String "/" name;
    organization := org;
    downloads := py_or (getattr model "downloads" (PyInt 0)) (PyInt 0);
    likes := py_or (getattr model "likes" (PyInt 0)) (PyInt 0) |}).
Proof.
  intros Horg Hid. unfold format_model_try. rewrite Hid.
  rewrite truthy_str by (by destruct org).
  cbn [negb]. by rewrite char_in_app_sep, split_1_first.
Qed.

Lemma format_model_try_no_slash model id :
  id ≠ "" → char_in "/" id = false →
  model_id_of model = PyStr id →
  format_model_try model = Ok (Some {|
    model_name := id;
    task := py_or (getattr model "pipeline_tag" PyNone) (PyStr "other");
    organization_url := "huggingface.co";
    full_model_id := id;
    organization := "independent";
    downloads := py_or (getattr model "downloads" (PyInt 0)) (PyInt 0);
    likes := py_or (getattr model "likes" (PyInt 0)) (PyInt 0) |}).
Proof.
  intros Hne Hid Hattr. unfold format_model_try. rewrite Hattr.
  rewrite truthy_str by done. cbn [negb]. by rewrite Hid.
Qed.

(** Every record comes from a non-empty string identifier, by one of the
    two branches. *)
Lemma formatted_inv model r :
  formatted model = Some r →
  ∃ id, model_id_of model = PyStr id ∧ id ≠ ""
    ∧ full_model_id r = id
    ∧ task r = py_or (getattr model "pipeline_tag" PyNone) (PyStr "other")
    ∧ downloads r = py_or (getattr model "downloads" (PyInt 0)) (PyInt 0)
    ∧ likes r = py_or (getattr model "likes" (PyInt 0)) (PyInt 0)
    ∧ ((∃ org name, id = org +:+ String "/" name ∧ char_in "/" org = false
          ∧ organization r = org ∧ model_name r = name
          ∧ organization_url r = "huggingface.co/" +:+ org)
       ∨ (char_in "/" id = false ∧ organization r = "independent"
          ∧ model_name r = id ∧ organization_url r = "huggingface.co")).
Proof.
  unfold formatted. intros Hr.
  destruct (model_id_of model) as [| b | z | id] eqn:Hid.
  - unfold format_model_try in Hr. by rewrite Hid in Hr.
  - unfold format_model_try in Hr. rewrite Hid in Hr. by destruct b.
  - unfold format_model_try in Hr. rewrite Hid in Hr. cbn in Hr.
    by destruct (z =? 0).
  - assert (Hne : id ≠ "").
    { intros ->. unfold format_model_try in Hr. by rewrite Hid in Hr. }
    exists id. split; [done |]. split; [done |].
    destruct (char_in "/" id) eqn:Hin.
    + destruct (char_in_cut _ _ Hin) as (org & name & -> & Horg).
      rewrite (format_model_try_slash model org name Horg Hid) in Hr.
      injection Hr as <-. cbn. repeat split; try done.
      left. by exists org, name.
    + rewrite (format_model_try_no_slash model id Hne Hin Hid) in Hr.
      injection Hr as <-. cbn. repeat split; try done.
      by right.
Qed.

Lemma format_model_run model w r :
  format_model_try model = Ok r → _format_model model w = (Ok r, w).
Proof. unfold _format_model, try_except, lift. by intros ->. Qed.

(** C4: the identifier is split at its first slash. The text before it is
    the organization, the text after it the model name, and the URL ends
    with the organization; so for [openai/gpt-2]. An identifier with no
    slash is the model name of an [independent] model, with the bare URL;
    so for [gpt-2]. *)
Theorem format_model_splits_at_first_slash (model : pyobj) (w : world) :
  (∀ org name,
     char_in "/" org = false →
     model_id_of model = PyStr (org +:+ "/" +:+ name) →
     ∃ r, _format_model model w = (Ok (Some r), w)
       ∧ organization r = org ∧ model_name r = name
       ∧ organization_url r = "huggingface.co/" +:+ org)
  ∧ (∀ id,
       id ≠ "" → char_in "/" id = false →
       model_id_of model = PyStr id →
       ∃ r, _format_model model w = (Ok (Some r), w)
         ∧ organization r = "independent" ∧ model_name r = id
         ∧ organization_url r = "huggingface.co")
  ∧ (model_id_of model = PyStr "openai/gpt-2" →
     ∃ r, _format_model model w = (Ok (Some r), w)
       ∧ organization r = "openai" ∧ model_name r = "gpt-2"
       ∧ organization_url r = "huggingface.co/openai")
  ∧ (model_id_of model = PyStr "gpt-2" →
     ∃ r, _format_model model w = (Ok (Some r), w)
       ∧ organization r = "independent" ∧ model_name r = "gpt-2"
       ∧ organization_url r = "huggingface.co").
Proof.
  assert (Hslash : ∀ org name,
    char_in "/" org = false →
    model_id_of model = PyStr (org +:+ "/" +:+ name) →
    ∃ r, _format_model model w = (Ok (Some r), w)
      ∧ organization r = org ∧ model_name r = name
      ∧ organization_url r = "huggingface.co/" +:+ org).
  { intros org name Horg Hid. eexists. split.
    - apply format_model_run. by apply (format_model_try_slash model org name).
    - done. }
  assert (Hnone : ∀ id,
    id ≠ "" → char_in "/" id = false →
    model_id_of model = PyStr id →
    ∃ r, _format_model model w = (Ok (Some r), w)
      ∧ organization r = "independent" ∧ model_name r = id
      ∧ organization_url r = "huggingface.co").
  { intros id Hne Hin Hid. eexists. split.
    - apply format_model_run. by apply (format_model_try_no_slash model id).
    - done. }
  split; [done |]. split; [done |]. split.
  - intros Hid. by apply (Hslash "openai" "gpt-2").
  - intros Hid. by apply (Hnone "gpt-2").
Qed.

Lemma format_model_splits_at_first_slash_witness :
  (∃ r, _format_model gpt2_obj empty_world = (Ok (Some r), empty_world)
     ∧ organization r = "openai" ∧ model_name r = "gpt-2"
     ∧ organization_url r = "huggingface.co/openai")
  ∧ (∃ r, _format_model (bare_obj "gpt-2") empty_world
          = (Ok (Some r), empty_world)
       ∧ organization r = "independent" ∧ model_name r = "gpt-2"
       ∧ organization_url r = "huggingface.co")
  ∧ (∃ r, _format_model (bare_obj "a/b/c") empty_world
          = (Ok (Some r), empty_world)
       ∧ organization r = "a" ∧ model_name r = "b/c"
       ∧ organization_url r = "huggingface.co/" +:+ "a")
  ∧ (∃ r, _format_model (bare_obj "bert") empty_world
          = (Ok (Some r), empty_world)
       ∧ organization r = "independent" ∧ model_name r = "bert"
       ∧ organization_url r = "huggingface.co").
Proof.
  split; [| split; [| split]].
  - destruct (format_model_splits_at_first_slash gpt2_obj empty_world)
      as (_ & _ & H & _).
    apply H. reflexivity.
  - destruct (format_model_splits_at_first_slash (bare_obj "gpt-2") empty_world)
      as (_ & _ & _ & H).
    apply H. reflexivity.
  - destruct (format_model_splits_at_first_slash (bare_obj "a/b/c") empty_world)
      as (H & _).
    apply (H "a" "b/c"); reflexivity.
  - destruct (format_model_splits_at_first_slash (bare_obj "bert") empty_world)
      as (_ & H & _).
    apply (H "bert"); [discriminate | reflexivity | reflexivity].
Defined.

(** ** Defaults *)

Lemma py_or_absent_or_falsy model name dflt other :
  truthy dflt = false →
  absent_or_falsy model name →
  py_or (getattr model name dflt) other = other.
Proof.
  unfold absent_or_falsy, py_or, getattr. intros Hd Ha.
  destruct (obj_attrs model !! name) as [v |]; cbn; by rewrite ?Ha, ?Hd.
Qed.

Lemma absent_or_None_falsy model name :
  absent_or_None model name → absent_or_falsy model name.
Proof. unfold absent_or_falsy. by intros [-> | ->]. Qed.

(** C6: in the record [_format_model] produces, [task] is ["other"] when
    the object has no [pipeline_tag] or a false one, [downloads] is [0] when
    the object has no [downloads] or [None], and [likes] likewise. *)
Theorem format_model_defaults (model : pyobj) (w : world) (r : ModelRecord) :
  (_format_model model w).1 = Ok (Some r) →
  (absent_or_falsy model "pipeline_tag" → task r = PyStr "other")
  ∧ (absent_or_None model "downloads" → downloads r = PyInt 0)
  ∧ (absent_or_None model "likes" → likes r = PyInt 0).
Proof.
  rewrite format_model_fst. intros [= Hr]. revert Hr.
  intros (id & _ & _ & _ & -> & -> & -> & _)%formatted_inv.
  repeat split; intros Ha.
  - by apply py_or_absent_or_falsy.
  - by apply py_or_absent_or_falsy, absent_or_None_falsy.
  - by apply py_or_absent_or_falsy, absent_or_None_falsy.
Qed.

Lemma format_model_defaults_witness :
  task (bare_record "gpt-2") = PyStr "other"
  ∧ downloads (bare_record "gpt-2") = PyInt 0
  ∧ likes (bare_record "gpt-2") = PyInt 0.
Proof.
  destruct (format_model_defaults (bare_obj "gpt-2") empty_world
              (bare_record "gpt-2")) as (Ht & Hd & Hl).
  - reflexivity.
  - split; [apply Ht; exact I |].
    split; [apply Hd | apply Hl]; left; reflexivity.
Defined.

(** ** Identifier, organization and model name *)

Lemma search_elem_formatted list_models a w results r :
  (search list_models a w).1 = Ok results → r ∈ results →
  ∃ model, formatted model = Some r.
Proof.
  intros Hsub%search_sublist_formatted Hr.
  apply (elem_of_sublist _ _ _ Hr) in Hsub.
  apply list_elem_of_omap in Hsub as (model & _ & Hm).
  by exists model.
Qed.

Lemma produced_formatted r : produced r → ∃ model, formatted model = Some r.
Proof.
  intros [(model & w & Hr) | (list_models & a & w & results & Hs & Hr)].
  - exists model. rewrite format_model_fst in Hr. by injection Hr.
  - by apply (search_elem_formatted list_models a w results).
Qed.

(** C9 as it is stated fails: the model [independent/bert] has the
    organization ["independent"], yet its identifier is not its model name
    and its URL is not the bare one. *)
Lemma format_model_independent_org_counterexample :
  ¬ (∀ r, produced r →
       (organization r ≠ "independent" →
        full_model_id r = organization r +:+ "/" +:+ model_name r)
       ∧ (organization r = "independent" →
          full_model_id r = model_name r
          ∧ organization_url r = "huggingface.co")).
Proof.
  intros H.
  destruct (H independent_bert_record) as [_ Hind].
  - left. exists (bare_obj "independent/bert"), empty_world. reflexivity.
  - destruct (Hind eq_refl) as [Hid _]. discriminate Hid.
Qed.

(** C9, amended: a record whose organization is not ["independent"] has
    the identifier [organization/model_name]. A record whose organization
    is ["independent"] has, when its identifier holds no slash, the
    identifier as model name and the bare URL; when its identifier holds a
    slash, the identifier [independent/model_name] and the URL of that
    organization. *)
Theorem format_model_round_trip (r : ModelRecord) :
  produced r →
  (organization r ≠ "independent" →
   full_model_id r = organization r +:+ "/" +:+ model_name r)
  ∧ (organization r = "independent" →
     char_in "/" (full_model_id r) = false →
     full_model_id r = model_name r
     ∧ organization_url r = "huggingface.co")
  ∧ (organization r = "independent" →
     char_in "/" (full_model_id r) = true →
     full_model_id r = "independent/" +:+ model_name r
     ∧ organization_url r = "huggingface.co/independent").
Proof.
  intros (model & Hr)%produced_formatted.
  apply formatted_inv in Hr
    as (id & _ & _ & Hfull & _ & _ & _ &
        [(org & name & -> & Horg & Ho & Hn & Hu) | (Hin & Ho & Hn & Hu)]).
  - rewrite Hfull, Ho, Hn, Hu. split; [done |]. split.
    + intros _. by rewrite char_in_app_sep.
    + by intros -> _.
  - rewrite Hfull, Ho, Hn, Hu, Hin. by repeat split.
Qed.

Lemma format_model_round_trip_witness :
  full_model_id gpt2_record
  = organization gpt2_record +:+ "/" +:+ model_name gpt2_record
  ∧ (full_model_id (bare_record "gpt-2") = model_name (bare_record "gpt-2")
     ∧ organization_url (bare_record "gpt-2") = "huggingface.co")
  ∧ (full_model_id independent_bert_record
     = "independent/" +:+ model_name independent_bert_record
     ∧ organization_url independent_bert_record = "huggingface.co/independent").
Proof.
  split; [| split].
  - destruct (format_model_round_trip gpt2_record) as (H & _ & _).
    + right.
      exists (list_of [gpt2_obj]), Args.defaults, empty_world, [gpt2_record].
      split; [vm_compute; reflexivity | apply list_elem_of_here].
    + apply H. discriminate.
  - destruct (format_model_round_trip (bare_record "gpt-2")) as (_ & H & _).
    + left. exists (bare_obj "gpt-2"), empty_world. reflexivity.
    + apply H; reflexivity.
  - destruct (format_model_round_trip independent_bert_record) as (_ & _ & H).
    + left. exists (bare_obj "independent/bert"), empty_world. reflexivity.
    + apply H; reflexivity.
Defined.

(** ** The wrappers *)

(** C5: each of the five wrappers is [search] at its preset arguments, the
    arguments it is given forwarded and the others at the defaults of
    [search]: the name as [query], the task with the floor 1000 or 0, the
    organization, the popular models with the floor 10000 sorted by
    downloads, the recent ones sorted by creation from [2024-01-01]. *)
Theorem wrappers_are_search (list_models : gmap string pyval -> listing)
    (name org task : string) (opt_task : option string) (limit : Z) :
  search_by_name list_models name limit
  = search list_models
      {| Args.query := Some name; Args.task := None;
         Args.organization := None; Args.library := None;
         Args.sort := "downloads"; Args.direction := -1;
         Args.limit := limit; Args.min_downloads := 0;
         Args.created_after := None |}
  ∧ search_by_org list_models org limit
    = search list_models
        {| Args.query := None; Args.task := None;
           Args.organization := Some org; Args.library := None;
           Args.sort := "downloads"; Args.direction := -1;
           Args.limit := limit; Args.min_downloads := 0;
           Args.created_after := None |}
  ∧ search_by_task list_models task limit true
    = search list_models
        {| Args.query := None; Args.task := Some task;
           Args.organization := None; Args.library := None;
           Args.sort := "downloads"; Args.direction := -1;
           Args.limit := limit; Args.min_downloads := 1000;
           Args.created_after := None |}
  ∧ search_by_task list_models task limit false
    = search list_models
        {| Args.query := None; Args.task := Some task;
           Args.organization := None; Args.library := None;
           Args.sort := "downloads"; Args.direction := -1;
           Args.limit := limit; Args.min_downloads := 0;
           Args.created_after := None |}
  ∧ get_popular list_models opt_task limit
    = search list_models
        {| Args.query := None; Args.task := opt_task;
           Args.organization := None; Args.library := None;
           Args.sort := "downloads"; Args.direction := -1;
           Args.limit := limit; Args.min_downloads := 10000;
           Args.created_after := None |}
  ∧ get_recent list_models opt_task limit
    = search list_models
        {| Args.query := None; Args.task := opt_task;
           Args.organization := None; Args.library := None;
           Args.sort := "created"; Args.direction := -1;
           Args.limit := limit; Args.min_downloads := 0;
           Args.created_after := Some "2024-01-01" |}.
Proof. repeat split. Qed.

(** ** [export_csv] on an empty list *)

(** C7: with an empty result list [export_csv] prints the no-results
    message and changes nothing else: no file is written, no directory is
    made, whatever the file name. *)
Theorem export_csv_empty (filename : string) (w : world) :
  (export_csv [] filename w).1 = Ok tt
  ∧ w_files (export_csv [] filename w).2 = w_files w
  ∧ w_mkdirs (export_csv [] filename w).2 = w_mkdirs w
  ∧ w_stdout (export_csv [] filename w).2
    = w_stdout w ++ ["❌ No results to export"].
Proof. by repeat split. Qed.

(** ** Strings: concatenation *)

Lemma append_assoc (a b c : string) : (a +:+ b) +:+ c = a +:+ (b +:+ c).
Proof.
  induction a as [| x a IH]; [done |].
  by rewrite !append_cons, IH.
Qed.

Lemma append_nil_r (s : string) : s +:+ "" = s.
Proof.
  induction s as [| x s IH]; [done |].
  by rewrite append_cons, IH.
Qed.

Lemma snoc_char_append (acc : string) (c : ascii) (s : string) :
  snoc_char acc c +:+ s = acc +:+ String c s.
Proof. unfold snoc_char. by rewrite append_assoc. Qed.

(** ** The file [export_csv] writes *)

Lemma f_write_lookup filename data content w :
  w_files w !! w_realpath w filename = Some content →
  w_files (f_write filename data w).2 !! w_realpath w filename
  = Some (content +:+ data).
Proof. intros Hc. cbn. by rewrite lookup_insert_eq, Hc. Qed.

Lemma f_write_lookup_ne filename data other w :
  other ≠ w_realpath w filename →
  w_files (f_write filename data w).2 !! other = w_files w !! other.
Proof. intros Hne. cbn. by rewrite lookup_insert_ne. Qed.

(** The rows are written to the file the name denotes; the log, the
    output, the directories and the answers of the file system stay. *)
Lemma write_models_frame filename results :
  ∀ w,
    (write_models filename results w).1 = Ok tt
    ∧ w_log (write_models filename results w).2 = w_log w
    ∧ w_stdout (write_models filename results w).2 = w_stdout w
    ∧ w_mkdirs (write_models filename results w).2 = w_mkdirs w
    ∧ w_realpath (write_models filename results w).2 = w_realpath w.
Proof.
  induction results as [| model results IH]; intros w; cbn [write_models];
    [done |].
  rewrite (bind_ok _ _ _ tt) by done.
  destruct (IH (writerow filename (csv_row_of model) w).2)
    as (Hr & Hl & Ho & Hm & Hp).
  by rewrite Hr, Hl, Ho, Hm, Hp.
Qed.

Lemma write_models_fst filename results w :
  (write_models filename results w).1 = Ok tt.
Proof. apply write_models_frame. Qed.

Lemma write_models_lookup filename results :
  ∀ content w,
    w_files w !! w_realpath w filename = Some content →
    w_files (write_models filename results w).2 !! w_realpath w filename
    = Some (content +:+
            foldr (fun model text => csv_line (csv_row_of model) +:+ text)
              "" results).
Proof.
  induction results as [| model results IH]; intros content w Hc;
    cbn [write_models foldr].
  - by rewrite append_nil_r.
  - rewrite (bind_ok _ _ _ tt) by done. unfold writerow.
    rewrite <- (append_assoc content).
    exact (IH _ (f_write filename (csv_line (csv_row_of model)) w).2
             (f_write_lookup _ _ _ _ Hc)).
Qed.

Lemma write_models_lookup_ne filename other results :
  ∀ w,
    other ≠ w_realpath w filename →
    w_files (write_models filename results w).2 !! other
    = w_files w !! other.
Proof.
  induction results as [| model results IH]; intros w Hne;
    cbn [write_models]; [done |].
  rewrite (bind_ok _ _ _ tt) by done.
  unfold writerow.
  rewrite (IH (f_write filename (csv_line (csv_row_of model)) w).2) by done.
  by rewrite f_write_lookup_ne.
Qed.

(** The first two steps of an export that the file system lets through. *)
Lemma export_csv_start {A} filename (k : M A) w :
  can_write w filename →
  (mkdir_parent filename ;;; open_w filename ;;; k) w
  = k (opened w filename).
Proof.
  intros (Hne & Hm & Ho). unfold bind, mkdir_parent, open_w. rewrite Hm. cbn.
  by rewrite bool_decide_eq_false_2, Ho.
Qed.

(** An export that the file system lets through: the file, the other
    files, and the rest of the world. *)
Lemma export_csv_run results filename w :
  results ≠ [] → can_write w filename →
  (export_csv results filename w).1 = Ok tt
  ∧ w_files (export_csv results filename w).2 !! w_realpath w filename
    = Some (csv_text_of results)
  ∧ (∀ other, other ≠ w_realpath w filename →
       w_files (export_csv results filename w).2 !! other
       = w_files w !! other)
  ∧ w_log (export_csv results filename w).2 = w_log w
  ∧ w_mkdirs (export_csv results filename w).2 = w_mkdirs w ++ [filename]
  ∧ w_stdout (export_csv results filename w).2
    = w_stdout w
        ++ ["💾 Exported " +:+ py_str (PyInt (Z.of_nat (length results)))
              +:+ " models to: " +:+ filename].
Proof.
  intros Hne Hcan. destruct results as [| model results]; [done |].
  unfold export_csv. set (rs := model :: results).
  rewrite (export_csv_start filename _ w Hcan).
  rewrite (bind_ok _ _ _ tt) by done.
  set (w1 := (writerow filename csv_header (opened w filename)).2).
  destruct (write_models_frame filename rs w1) as (Hr & Hl & Ho & Hm & Hp).
  pose proof (write_models_lookup filename rs (csv_line csv_header) w1) as Hc.
  pose proof (fun other => write_models_lookup_ne filename other rs w1) as Ho'.
  rewrite (bind_ok _ _ _ tt) by done.
  cbn [print fst snd w_files w_log w_mkdirs w_stdout].
  rewrite Hl, Ho, Hm.
  split; [done |]. split; [| split; [| done]].
  - apply Hc. subst w1. cbn. by rewrite !lookup_insert_eq.
  - intros other Hother. rewrite Ho' by done.
    subst w1. cbn. by rewrite !lookup_insert_ne.
Qed.

Lemma export_csv_fst results filename w :
  can_write w filename → (export_csv results filename w).1 = Ok tt.
Proof.
  intros Hcan. destruct results as [| model results]; [done |].
  by apply export_csv_run.
Qed.

(** An export raises only when there is something to write and the file
    system refuses the directory or the file. *)
Lemma export_csv_raise results filename w e :
  (export_csv results filename w).1 = Raise e →
  results ≠ [] ∧ ¬ can_write w filename.
Proof.
  intros Hr. split.
  - by intros ->.
  - intros Hcan. by rewrite (export_csv_fst _ _ _ Hcan) in Hr.
Qed.

(** ** Reading back what the writer wrote *)

Lemma csv_special_false c :
  csv_special c = false →
  bool_decide (c = ","%char) = false ∧ bool_decide (c = dquote) = false
  ∧ bool_decide (c = CR) = false ∧ bool_decide (c = LF) = false.
Proof.
  unfold csv_special.
  intros [[[H1 H2]%orb_false_elim H3]%orb_false_elim H4]%orb_false_elim.
  done.
Qed.

(** In a quoted field every character of the written text is read back. *)
Lemma read_quoted_body f :
  ∀ acc row rows rest,
    csv_read_go InQuoted acc row rows (double_quotes f +:+ rest)
    = csv_read_go InQuoted (acc +:+ f) row rows rest.
Proof.
  induction f as [| c f IH]; intros acc row rows rest; cbn [double_quotes].
  - by rewrite append_nil_l, append_nil_r.
  - destruct (bool_decide (c = dquote)) eqn:Hc.
    + rewrite !append_cons. cbn [csv_read_go]. rewrite Hc.
      by rewrite IH, snoc_char_append.
    + rewrite !append_cons. cbn [csv_read_go]. rewrite Hc.
      by rewrite IH, snoc_char_append.
Qed.

(** Decide the comparisons of two known characters, then go on reading. *)
Ltac decide_chars :=
  repeat match goal with
    | |- context [bool_decide (?a = ?b)] =>
        let v := eval vm_compute in (bool_decide (a = b)) in
        match v with
        | true => idtac
        | false => idtac
        end;
        change (bool_decide (a = b)) with v
    end.

Ltac read_step := cbn [csv_read_go]; decide_chars; cbn [csv_read_go].

Lemma read_quoted_comma f b row rows rest :
  csv_read_go (Start b) "" row rows (csv_quoted f +:+ String "," rest)
  = csv_read_go (Start false) "" (row ++ [f]) rows rest.
Proof.
  unfold csv_quoted. rewrite append_cons, append_assoc, append_cons, append_nil_l.
  read_step. rewrite read_quoted_body, append_nil_l. by read_step.
Qed.

Lemma read_quoted_crlf f b row rows rest :
  csv_read_go (Start b) "" row rows (csv_quoted f +:+ CRLF +:+ rest)
  = csv_read_go (Start true) "" [] (rows ++ [row ++ [f]]) rest.
Proof.
  unfold csv_quoted, CRLF.
  rewrite append_cons, append_assoc, !append_cons, !append_nil_l.
  read_step. rewrite read_quoted_body, append_nil_l. by read_step.
Qed.

(** In an unquoted field every character is read as it is. *)
Lemma read_plain_body f :
  needs_quote f = false →
  ∀ acc row rows rest,
    csv_read_go InField acc row rows (f +:+ rest)
    = csv_read_go InField (acc +:+ f) row rows rest.
Proof.
  induction f as [| c f IH]; intros Hq acc row rows rest.
  - by rewrite append_nil_l, append_nil_r.
  - cbn [needs_quote] in Hq. apply orb_false_elim in Hq as [Hc Hf].
    apply csv_special_false in Hc as (Hcomma & Hdq & Hcr & Hlf).
    rewrite append_cons. cbn [csv_read_go].
    rewrite Hcomma, Hdq, Hcr, Hlf.
    by rewrite (IH Hf), snoc_char_append.
Qed.

Lemma read_plain_comma f b row rows rest :
  needs_quote f = false →
  csv_read_go (Start b) "" row rows (f +:+ String "," rest)
  = csv_read_go (Start false) "" (row ++ [f]) rows rest.
Proof.
  intros Hq. destruct f as [| c f].
  - rewrite append_nil_l. by read_step.
  - cbn [needs_quote] in Hq. apply orb_false_elim in Hq as [Hc Hf].
    apply csv_special_false in Hc as (Hcomma & Hdq & Hcr & Hlf).
    rewrite append_cons. cbn [csv_read_go].
    rewrite Hcomma, Hdq, Hcr, Hlf.
    rewrite (read_plain_body f Hf). by read_step.
Qed.

Lemma read_plain_crlf f b row rows rest :
  needs_quote f = false →
  b = false ∨ f ≠ "" →
  csv_read_go (Start b) "" row rows (f +:+ CRLF +:+ rest)
  = csv_read_go (Start true) "" [] (rows ++ [row ++ [f]]) rest.
Proof.
  intros Hq Hb. unfold CRLF. destruct f as [| c f].
  - destruct Hb as [-> | ?]; [| done].
    rewrite !append_nil_l, !append_cons, append_nil_l. by read_step.
  - cbn [needs_quote] in Hq. apply orb_false_elim in Hq as [Hc Hf].
    apply csv_special_false in Hc as (Hcomma & Hdq & Hcr & Hlf).
    rewrite append_cons. cbn [csv_read_go].
    rewrite Hcomma, Hdq, Hcr, Hlf.
    rewrite (read_plain_body f Hf), !append_cons, !append_nil_l.
    by read_step.
Qed.

(** A written field, quoted or not, is read back as the field. *)
Lemma read_field_comma f b row rows rest :
  csv_read_go (Start b) "" row rows (csv_field f +:+ String "," rest)
  = csv_read_go (Start false) "" (row ++ [f]) rows rest.
Proof.
  unfold csv_field. destruct (needs_quote f) eqn:Hq.
  - apply read_quoted_comma.
  - by apply read_plain_comma.
Qed.

Lemma read_field_crlf f b row rows rest :
  b = false ∨ f ≠ "" →
  csv_read_go (Start b) "" row rows (csv_field f +:+ CRLF +:+ rest)
  = csv_read_go (Start true) "" [] (rows ++ [row ++ [f]]) rest.
Proof.
  intros Hb. unfold csv_field. destruct (needs_quote f) eqn:Hq.
  - apply read_quoted_crlf.
  - by apply read_plain_crlf.
Qed.

(** A written record is read back as its fields. *)
Lemma read_join fields :
  ∀ f b row rows rest,
    b = false ∨ fields ≠ [] ∨ f ≠ "" →
    csv_read_go (Start b) "" row rows (csv_join (f :: fields) +:+ CRLF +:+ rest)
    = csv_read_go (Start true) "" [] (rows ++ [row ++ f :: fields]) rest.
Proof.
  induction fields as [| g fields IH]; intros f b row rows rest Hb.
  - cbn [csv_join]. apply read_field_crlf.
    destruct Hb as [Hb | [Hb | Hb]]; [by left | done | by right].
  - change (csv_join (f :: g :: fields))
      with (csv_field f +:+ "," +:+ csv_join (g :: fields)).
    rewrite !append_assoc, append_cons, append_nil_l.
    rewrite read_field_comma, IH by (by left).
    by rewrite <- app_assoc.
Qed.

Lemma read_line row rows rest :
  csv_read_go (Start true) "" [] rows (csv_line row +:+ rest)
  = csv_read_go (Start true) "" [] (rows ++ [map csv_text row]) rest.
Proof.
  unfold csv_line. destruct (map csv_text row) as [| f fields].
  - cbn [csv_join]. unfold CRLF.
    rewrite append_nil_l, !append_cons, append_nil_l. by read_step.
  - destruct f as [| c f], fields as [| g fields]; rewrite append_assoc.
    + by rewrite read_quoted_crlf.
    + rewrite read_join by (right; by left). done.
    + rewrite read_join by (right; by right). done.
    + rewrite read_join by (right; by left). done.
Qed.

Lemma read_lines results :
  ∀ rows,
    csv_read_go (Start true) "" [] rows
      (foldr (fun model text => csv_line (csv_row_of model) +:+ text) "" results)
    = Some (rows ++ map (fun model => map csv_text (csv_row_of model)) results).
Proof.
  induction results as [| model results IH]; intros rows; cbn [foldr map].
  - by rewrite app_nil_r.
  - by rewrite read_line, IH, <- app_assoc.
Qed.

Lemma csv_read_text_of results :
  csv_read (csv_text_of results) = Some (csv_cells results).
Proof.
  unfold csv_read, csv_text_of. by rewrite read_line, read_lines.
Qed.

(** C8: for a non-empty result list and a file name whose parent
    directory can be made and that can be opened for writing, [export_csv]
    returns and leaves in the file the name denotes the header line
    [model_name,task,organization_url] followed by one line per record, in
    the order of the list; read as CSV, the file has the header row and
    then, for each record, the row of its [model_name], [task] and
    [organization_url]. *)
Theorem export_csv_writes (results : list ModelRecord) (filename : string)
    (w : world) :
  results ≠ [] →
  can_write w filename →
  ∃ content,
    (export_csv results filename w).1 = Ok tt
    ∧ w_files (export_csv results filename w).2 !! w_realpath w filename
      = Some content
    ∧ content
      = "model_name,task,organization_url" +:+ CRLF
          +:+ foldr (fun model text => csv_line (csv_row_of model) +:+ text)
                "" results
    ∧ csv_read content
      = Some (["model_name"; "task"; "organization_url"]
                :: map (fun model => [model_name model; csv_text (task model);
                                      organization_url model]) results).
Proof.
  intros Hne Hcan. exists (csv_text_of results).
  destruct (export_csv_run results filename w Hne Hcan) as (Hr & Hc & _).
  split; [done |]. split; [done |].
  split; [by rewrite <- append_assoc |].
  apply csv_read_text_of.
Qed.

Lemma export_csv_writes_witness :
  ∃ content,
    (export_csv [gpt2_record] "out/models.csv" empty_world).1 = Ok tt
    ∧ w_files (export_csv [gpt2_record] "out/models.csv" empty_world).2
        !! w_realpath empty_world "out/models.csv" = Some content
    ∧ content
      = "model_name,task,organization_url" +:+ CRLF
          +:+ foldr (fun model text => csv_line (csv_row_of model) +:+ text)
                "" [gpt2_record]
    ∧ csv_read content
      = Some (["model_name"; "task"; "organization_url"]
                :: map (fun model => [model_name model; csv_text (task model);
                                      organization_url model]) [gpt2_record]).
Proof.
  apply (export_csv_writes [gpt2_record] "out/models.csv" empty_world).
  - discriminate.
  - repeat split. discriminate.
Defined.

(** * The search, further *)

(** ** What [search] changes *)

Lemma log_extended_refl w : log_extended w w.
Proof. repeat split. exists []. by rewrite app_nil_r. Qed.

Lemma log_extended_trans w1 w2 w3 :
  log_extended w1 w2 → log_extended w2 w3 → log_extended w1 w3.
Proof.
  intros ([l1 H1] & Ho1 & Hm1 & Hf1 & Hp1 & He1 & Hx1)
    ([l2 H2] & Ho2 & Hm2 & Hf2 & Hp2 & He2 & Hx2).
  repeat split; try congruence.
  exists (l1 ++ l2). by rewrite H2, H1, app_assoc.
Qed.

Lemma log_only_ret {A} (a : A) : log_only (ret a).
Proof. intros w. apply log_extended_refl. Qed.

Lemma log_only_raise {A} e : log_only (@raise A e).
Proof. intros w. apply log_extended_refl. Qed.

Lemma log_only_lift {A} (r : res A) : log_only (lift r).
Proof. intros w. apply log_extended_refl. Qed.

Lemma log_only_logger l msg : log_only (logger l msg).
Proof. intros w. repeat split. by exists [(l, msg)]. Qed.

Lemma log_only_bind {A B} (m : M A) (k : A -> M B) :
  log_only m → (∀ a, log_only (k a)) → log_only (bind m k).
Proof.
  intros Hm Hk w. unfold bind. specialize (Hm w).
  destruct (m w) as [[a | e] w1]; cbn in *; [| done].
  exact (log_extended_trans _ _ _ Hm (Hk a w1)).
Qed.

Lemma log_only_try_except {A} (body : M A) (handler : pyexc -> M A) :
  log_only body → (∀ e, log_only (handler e)) →
  log_only (try_except body handler).
Proof.
  intros Hb Hh w. unfold try_except. specialize (Hb w).
  destruct (body w) as [[a | e] w1]; cbn in *; [done |].
  destruct (is_Exception e); [| done].
  exact (log_extended_trans _ _ _ Hb (Hh e w1)).
Qed.

Create HintDb log_only.
#[local] Hint Resolve log_only_ret log_only_raise log_only_lift
  log_only_logger : log_only.
#[local] Hint Extern 2 (log_only (bind _ _)) =>
  apply log_only_bind; [| intros ?] : log_only.
#[local] Hint Extern 2 (log_only (try_except _ _)) =>
  apply log_only_try_except; [| intros ?] : log_only.

Lemma log_only_format_model model : log_only (_format_model model).
Proof. unfold _format_model. auto with log_only. Qed.

Lemma log_only_search_try_model query min_downloads model results :
  log_only (search_try_model query min_downloads model results).
Proof.
  unfold search_try_model.
  apply log_only_bind; [apply log_only_format_model |].
  intros [md |]; [| auto with log_only].
  apply log_only_bind; [auto with log_only |]. intros ge.
  repeat case_match; auto with log_only.
Qed.

Lemma log_only_search_loop query min_downloads models :
  ∀ results, log_only (search_loop query min_downloads models results).
Proof.
  induction models as [| model rest IH | e]; intros results;
    cbn [search_loop]; auto with log_only.
  apply log_only_bind; [| apply IH].
  apply log_only_try_except; [| auto with log_only].
  apply log_only_search_try_model.
Qed.

Lemma log_only_search_body list_models a :
  log_only
    (try_except
       (models <- call_list_models list_models (build_search_params a) ;;
        results <- search_loop (Args.query a) (Args.min_downloads a) models [] ;;
        logger INFO (MsgFound (length results)) ;;;
        ret results)
       (fun e => logger ERROR (MsgSearchFailed e) ;;; ret [])).
Proof.
  apply log_only_try_except; [| auto with log_only].
  apply log_only_bind.
  - unfold call_list_models. destruct (list_models _); auto with log_only.
  - intros models. apply log_only_bind; [apply log_only_search_loop |].
    auto with log_only.
Qed.

(** X3: [search] changes nothing but the log: what was printed, the
    directories asked for and the files are as before, the log keeps its
    entries, and the first entry added tells the parameters sent to the
    listing. *)
Theorem search_only_logs (list_models : gmap string pyval -> listing)
    (a : Args.t) (w : world) :
  (∃ entries,
     w_log (search list_models a w).2
     = w_log w ++ (INFO, MsgSearching (build_search_params a)) :: entries)
  ∧ w_stdout (search list_models a w).2 = w_stdout w
  ∧ w_mkdirs (search list_models a w).2 = w_mkdirs w
  ∧ w_files (search list_models a w).2 = w_files w.
Proof.
  unfold search. rewrite (bind_ok _ _ _ tt) by done.
  match goal with
  | |- context [try_except ?b ?h ?w'] =>
      destruct (log_only_search_body list_models a w')
        as ([entries Hl] & Ho & Hm & Hf & _)
  end.
  repeat split; try done.
  exists entries. rewrite Hl. cbn. by rewrite <- app_assoc.
Qed.

(** ** What [search] returns and raises *)

(** X1: when the listing ends without an exception, [search] returns
    exactly the formatted records of the objects it yielded whose download
    count is a number not below [min_downloads], in the order of the
    listing, and the last log entry tells how many they are. *)
Theorem search_exact (list_models : gmap string pyval -> listing)
    (a : Args.t) (w : world) :
  listing_exc (list_models (build_search_params a)) = None →
  let results :=
    List.filter (passes_downloads (Args.min_downloads a))
      (omap formatted (listing_models (list_models (build_search_params a)))) in
  (search list_models a w).1 = Ok results
  ∧ last (w_log (search list_models a w).2)
    = Some (INFO, MsgFound (length results)).
Proof.
  intros Hl results. split; [by rewrite search_fst, Hl |].
  unfold search. rewrite (bind_ok _ _ _ tt) by done.
  match goal with
  | |- context [try_except ?b ?h ?w'] =>
      pose proof (search_body_fst list_models (Args.query a)
                    (Args.min_downloads a) (build_search_params a) w') as Hb;
      set (w1 := w') in *
  end.
  rewrite Hl in Hb. rewrite (try_except_ok _ _ _ _ Hb).
  cbn [snd]. clear Hb.
  pose proof (call_list_models_fst list_models (build_search_params a) w1) as Hc.
  subst results.
  destruct (list_models (build_search_params a)) as [e | models];
    [done |]. cbn [listing_exc listing_models] in *.
  rewrite (bind_ok _ _ _ _ Hc).
  match goal with
  | |- context [bind (search_loop ?q ?m ?ms ?rs) ?k ?w'] =>
      pose proof (search_loop_fst q m ms rs w') as Hloop
  end.
  rewrite Hl in Hloop. rewrite (bind_ok _ _ _ _ Hloop).
  cbn. by rewrite last_snoc.
Qed.

Lemma search_exact_witness :
  (search (list_of [bare_obj "tiny"; gpt2_obj]) (with_min_downloads 1000)
     empty_world).1
  = Ok (List.filter (passes_downloads 1000)
          (omap formatted [bare_obj "tiny"; gpt2_obj]))
  ∧ last (w_log (search (list_of [bare_obj "tiny"; gpt2_obj])
                   (with_min_downloads 1000) empty_world).2)
    = Some (INFO,
            MsgFound (length (List.filter (passes_downloads 1000)
                                (omap formatted [bare_obj "tiny"; gpt2_obj])))).
Proof.
  apply (search_exact (list_of [bare_obj "tiny"; gpt2_obj])
           (with_min_downloads 1000) empty_world).
  reflexivity.
Defined.

(** X2: [search] never raises an instance of [Exception]: an exception that
    leaves it is the one the listing raised, and is not an [Exception]. *)
Theorem search_raises_only_base (list_models : gmap string pyval -> listing)
    (a : Args.t) (w : world) (e : pyexc) :
  (search list_models a w).1 = Raise e →
  listing_exc (list_models (build_search_params a)) = Some e
  ∧ is_Exception e = false.
Proof.
  rewrite search_fst. destruct (listing_exc _) as [e' |]; [| done].
  destruct (is_Exception e') eqn:He; [done |]. by intros [= <-].
Qed.

Lemma search_raises_only_base_witness :
  listing_exc (list_then_raise [gpt2_obj] keyboard_interrupt
                 (build_search_params Args.defaults))
  = Some keyboard_interrupt
  ∧ is_Exception keyboard_interrupt = false.
Proof.
  apply (search_raises_only_base
           (list_then_raise [gpt2_obj] keyboard_interrupt)
           Args.defaults empty_world keyboard_interrupt).
  reflexivity.
Defined.

(** ** Raising the floor *)

Lemma filter_sublist_impl {A} (p q : A -> bool) (l : list A) :
  (∀ x, q x = true → p x = true) →
  List.filter q l `sublist_of` List.filter p l.
Proof.
  intros Hpq. induction l as [| x l IH]; cbn; [constructor |].
  destruct (q x) eqn:Hq.
  - rewrite (Hpq x Hq). by constructor.
  - destruct (p x); [by constructor | done].
Qed.

Lemma passes_downloads_mono m m' r :
  m ≤ m' → passes_downloads m' r = true → passes_downloads m r = true.
Proof.
  unfold passes_downloads, py_ge. intros Hle.
  destruct (as_int (downloads r)) as [d |]; [| done].
  intros ?%Z.leb_le. apply Z.leb_le. lia.
Qed.

(** X4: with the other arguments the same, a higher [min_downloads] returns
    a subsequence of what a lower one returns: the floor is not sent to the
    listing, it only removes records. *)
Theorem search_min_downloads_monotone
    (list_models : gmap string pyval -> listing) (a : Args.t) (m m' : Z)
    (w w' : world) (results results' : list ModelRecord) :
  m ≤ m' →
  (search list_models (set_min_downloads a m) w).1 = Ok results →
  (search list_models (set_min_downloads a m') w').1 = Ok results' →
  results' `sublist_of` results.
Proof.
  intros Hle. rewrite !search_fst.
  change (build_search_params (set_min_downloads a m))
    with (build_search_params a).
  change (build_search_params (set_min_downloads a m'))
    with (build_search_params a).
  destruct (listing_exc _) as [e |].
  - destruct (is_Exception e); [| done]. by intros [= <-] [= <-].
  - intros [= <-] [= <-]. apply filter_sublist_impl.
    intros r. by apply passes_downloads_mono.
Qed.

Lemma search_min_downloads_monotone_witness :
  [gpt2_record] `sublist_of` [bare_record "tiny"; gpt2_record].
Proof.
  apply (search_min_downloads_monotone
           (list_of [bare_obj "tiny"; gpt2_obj]) Args.defaults 0 1000
           empty_world empty_world
           [bare_record "tiny"; gpt2_record] [gpt2_record]).
  - lia.
  - vm_compute. reflexivity.
  - vm_compute. reflexivity.
Defined.

(** ** The parameters sent to the listing *)

Lemma add_filter_lookup key value (search_params : gmap string pyval) k :
  add_filter key value search_params !! k
  = if decide (key = k) then
      match filter_value value with
      | Some v => Some v
      | None => search_params !! k
      end
    else search_params !! k.
Proof.
  unfold add_filter, filter_value.
  destruct value as [s |]; [| by case_decide].
  destruct (truthy (PyStr s)); [| by case_decide].
  case_decide as Hk.
  - subst k. apply lookup_insert_eq.
  - by apply lookup_insert_ne.
Qed.

(** X5: the listing always receives [sort], [direction], [limit] and
    [full=True]; it receives [task], [author], [library], [search] and
    [created_at] exactly when the matching argument is a non-empty string,
    with that string; it receives no other key, so never
    [min_downloads]. *)
Theorem build_search_params_lookup (a : Args.t) :
  build_search_params a !! "sort" = Some (PyStr (Args.sort a))
  ∧ build_search_params a !! "direction" = Some (PyInt (Args.direction a))
  ∧ build_search_params a !! "limit" = Some (PyInt (Args.limit a))
  ∧ build_search_params a !! "full" = Some (PyBool true)
  ∧ build_search_params a !! "task" = filter_value (Args.task a)
  ∧ build_search_params a !! "author" = filter_value (Args.organization a)
  ∧ build_search_params a !! "library" = filter_value (Args.library a)
  ∧ build_search_params a !! "search" = filter_value (Args.query a)
  ∧ build_search_params a !! "created_at" = filter_value (Args.created_after a)
  ∧ ∀ k, k ∉ search_param_keys → build_search_params a !! k = None.
Proof.
  unfold build_search_params.
  repeat split; rewrite ?add_filter_lookup;
    repeat (case_decide; [discriminate |]);
    try (case_decide; [| done]);
    try (by destruct (filter_value _));
    try reflexivity.
  intros k Hk. unfold search_param_keys in Hk.
  repeat (apply not_elem_of_cons in Hk as [? Hk]).
  rewrite !add_filter_lookup.
  repeat (case_decide; [congruence |]).
  by rewrite !lookup_insert_ne, lookup_empty by congruence.
Qed.

(** ** The outcomes of [_format_model] *)

(** X6: [_format_model] never raises. An identifier with a false truth
    value ([None], the empty string, zero) gives [None] and no log entry; a
    non-empty string gives a record with that identifier, and no log entry;
    any other identifier gives [None] and one warning, the [TypeError] of
    the membership test. *)
Theorem format_model_outcomes (model : pyobj) (w : world) :
  (truthy (model_id_of model) = false →
   _format_model model w = (Ok None, w))
  ∧ (∀ id, model_id_of model = PyStr id → id ≠ "" →
       ∃ r, _format_model model w = (Ok (Some r), w) ∧ full_model_id r = id)
  ∧ (truthy (model_id_of model) = true →
     (∀ id, model_id_of model ≠ PyStr id) →
     (_format_model model w).1 = Ok None
     ∧ w_log (_format_model model w).2
       = w_log w
           ++ [(WARNING,
                MsgErrorFormatting
                  (TypeError ("argument of type '"
                                +:+ type_name (model_id_of model)
                                +:+ "' is not iterable")))]
     ∧ w_stdout (_format_model model w).2 = w_stdout w
     ∧ w_files (_format_model model w).2 = w_files w).
Proof.
  split; [| split].
  - intros Hf. apply format_model_run. unfold format_model_try. by rewrite Hf.
  - intros id Hid Hne. destruct (char_in "/" id) eqn:Hin.
    + destruct (char_in_cut _ _ Hin) as (org & name & -> & Horg).
      eexists. split.
      * apply format_model_run.
        by apply (format_model_try_slash model org name).
      * done.
    + eexists. split.
      * apply format_model_run.
        by apply (format_model_try_no_slash model id).
      * done.
  - intros Ht Hns.
    assert (Htry : format_model_try model
                   = Raise (TypeError ("argument of type '"
                                         +:+ type_name (model_id_of model)
                                         +:+ "' is not iterable"))).
    { unfold format_model_try. rewrite Ht. cbn [negb].
      destruct (model_id_of model) as [| b | z | id] eqn:Hid; try done.
      by destruct (Hns id). }
    unfold _format_model, try_except, lift. rewrite Htry. by cbn.
Qed.

Lemma format_model_outcomes_witness :
  _format_model {| obj_attrs := {[ "id" := PyStr "" ]}; obj_str := "m" |}
    empty_world = (Ok None, empty_world)
  ∧ (∃ r, _format_model gpt2_obj empty_world = (Ok (Some r), empty_world)
       ∧ full_model_id r = "openai/gpt-2")
  ∧ (_format_model {| obj_attrs := {[ "id" := PyInt 7 ]}; obj_str := "m" |}
       empty_world).1 = Ok None.
Proof.
  split; [| split].
  - destruct (format_model_outcomes
                {| obj_attrs := {[ "id" := PyStr "" ]}; obj_str := "m" |}
                empty_world) as (H & _ & _).
    apply H. reflexivity.
  - destruct (format_model_outcomes gpt2_obj empty_world) as (_ & H & _).
    apply (H "openai/gpt-2"); [reflexivity | discriminate].
  - destruct (format_model_outcomes
                {| obj_attrs := {[ "id" := PyInt 7 ]}; obj_str := "m" |}
                empty_world) as (_ & _ & H).
    apply H; [reflexivity | discriminate].
Defined.

(** ** What every record satisfies *)

Lemma py_or_truthy a b : truthy b = true → truthy (py_or a b) = true.
Proof. unfold py_or. by destruct (truthy a) eqn:Ha. Qed.

Lemma py_or_zero a : truthy (py_or a (PyInt 0)) = true ∨ py_or a (PyInt 0) = PyInt 0.
Proof. unfold py_or. destruct (truthy a) eqn:Ha; auto. Qed.

(** X7: in every record of [_format_model] or [search] the identifier is
    not empty, the organization holds no slash, the URL is the bare one or
    ends with the organization, the task has a true truth value (it is
    never [None] nor empty), and [downloads] and [likes] are the integer 0
    or have a true truth value. *)
Theorem record_invariants (r : ModelRecord) :
  produced r →
  full_model_id r ≠ ""
  ∧ char_in "/" (organization r) = false
  ∧ (organization_url r = "huggingface.co"
     ∨ organization_url r = "huggingface.co/" +:+ organization r)
  ∧ truthy (task r) = true
  ∧ (truthy (downloads r) = true ∨ downloads r = PyInt 0)
  ∧ (truthy (likes r) = true ∨ likes r = PyInt 0).
Proof.
  intros (model & Hr)%produced_formatted.
  apply formatted_inv in Hr
    as (id & _ & Hne & Hfull & Ht & Hd & Hl &
        [(org & name & -> & Horg & Ho & Hn & Hu) | (Hin & Ho & Hn & Hu)]).
  - rewrite Hfull, Ho, Hu, Ht, Hd, Hl.
    repeat split; auto using py_or_truthy, py_or_zero.
  - rewrite Hfull, Ho, Hu, Ht, Hd, Hl.
    repeat split; auto using py_or_truthy, py_or_zero.
Qed.

Lemma record_invariants_witness :
  full_model_id gpt2_record ≠ ""
  ∧ char_in "/" (organization gpt2_record) = false
  ∧ (organization_url gpt2_record = "huggingface.co"
     ∨ organization_url gpt2_record
       = "huggingface.co/" +:+ organization gpt2_record)
  ∧ truthy (task gpt2_record) = true
  ∧ (truthy (downloads gpt2_record) = true ∨ downloads gpt2_record = PyInt 0)
  ∧ (truthy (likes gpt2_record) = true ∨ likes gpt2_record = PyInt 0).
Proof.
  apply (record_invariants gpt2_record).
  left. exists gpt2_obj, empty_world. reflexivity.
Defined.

(** ** The floors of the wrappers *)

Lemma search_floor list_models a w results r :
  (search list_models a w).1 = Ok results → r ∈ results →
  ∃ d, as_int (downloads r) = Some d ∧ Args.min_downloads a ≤ d.
Proof.
  intros [-> | ->]%search_returns; [by intros ?%not_elem_of_nil |].
  rewrite list_elem_of_In, filter_In. intros [_ Hp].
  by apply passes_downloads_spec.
Qed.

(** X8: every record [get_popular] returns has at least 10000 downloads,
    and every record [search_by_task] returns with [popular_only] at least
    1000. *)
Theorem wrappers_floor (list_models : gmap string pyval -> listing)
    (w : world) (results : list ModelRecord) (r : ModelRecord) :
  r ∈ results →
  (∀ task limit,
     (get_popular list_models task limit w).1 = Ok results →
     ∃ d, as_int (downloads r) = Some d ∧ 10000 ≤ d)
  ∧ (∀ task limit,
       (search_by_task list_models task limit true w).1 = Ok results →
       ∃ d, as_int (downloads r) = Some d ∧ 1000 ≤ d).
Proof.
  intros Hr. split; intros task limit Hs.
  - by apply (search_floor _ _ _ _ _ Hs Hr).
  - by apply (search_floor _ _ _ _ _ Hs Hr).
Qed.

Lemma wrappers_floor_witness :
  ∃ d, as_int (downloads popular_record) = Some d ∧ 10000 ≤ d.
Proof.
  destruct (wrappers_floor (list_of [gpt2_obj; popular_obj]) empty_world
              [popular_record] popular_record) as [H _].
  - apply list_elem_of_here.
  - apply (H None 50). vm_compute. reflexivity.
Defined.

(** * Printing *)

Lemma printed_nil w : printed w [] = w.
Proof. destruct w. unfold printed. cbn. by rewrite app_nil_r. Qed.

Lemma printed_app w l1 l2 : printed (printed w l1) l2 = printed w (l1 ++ l2).
Proof. unfold printed. cbn. by rewrite app_assoc. Qed.

Lemma print_printed line w : print line w = (Ok tt, printed w [line]).
Proof. done. Qed.

Lemma format_ljust_ok width v :
  v ≠ PyNone → ∃ s, format_ljust width v = Ok s.
Proof. destruct v; [done | eexists; reflexivity ..]. Qed.

Lemma format_comma_ok v :
  is_Some (as_int v) → ∃ s, format_comma v = Ok s.
Proof.
  destruct v; cbn; intros [d Hd]; try discriminate; eexists; reflexivity.
Qed.

Lemma format_comma_exc v e :
  format_comma v = Raise e → is_Exception e = true ∧ as_int v = None.
Proof. destruct v; cbn; intros [= <-]; done. Qed.

Lemma format_ljust_exc width v e :
  format_ljust width v = Raise e → is_Exception e = true ∧ v = PyNone.
Proof. destruct v; cbn; intros [= <-]; done. Qed.

(** The line of a record that can be formatted. *)
Lemma print_model_line_ok i model show_downloads w :
  printable show_downloads model →
  print_model_line i model show_downloads w
  = (Ok tt, printed w [model_line i model show_downloads]).
Proof.
  intros [Ht Hd]. unfold print_model_line, model_line.
  destruct (format_ljust_ok 25 (task model) Ht) as [ts Hts].
  destruct show_downloads.
  - destruct (format_comma_ok (downloads model) (Hd eq_refl)) as [ds Hds].
    unfold bind, lift, ret. by rewrite Hds, Hts.
  - unfold bind, lift, ret. by rewrite Hts.
Qed.

(** The line of a record that cannot be formatted: an exception, and
    nothing printed. *)
Lemma print_model_line_raise i model show_downloads w :
  ¬ printable show_downloads model →
  ∃ e, print_model_line i model show_downloads w = (Raise e, w)
       ∧ is_Exception e = true.
Proof.
  intros Hn. unfold print_model_line, bind, lift, ret.
  destruct show_downloads.
  - destruct (format_comma (downloads model)) as [ds | e] eqn:Hds.
    + destruct (format_ljust 25 (task model)) as [ts | e] eqn:Hts.
      * destruct Hn. split.
        -- intros Hnone. by rewrite Hnone in Hts.
        -- intros _. destruct (downloads model); by cbn in *.
      * apply format_ljust_exc in Hts as [He _]. by exists e.
    + apply format_comma_exc in Hds as [He _]. by exists e.
  - destruct (format_ljust 25 (task model)) as [ts | e] eqn:Hts.
    + destruct Hn. split; [| done].
      intros Hnone. by rewrite Hnone in Hts.
    + apply format_ljust_exc in Hts as [He _]. by exists e.
Qed.

Lemma print_models_ok results show_downloads :
  ∀ i w,
    Forall (printable show_downloads) results →
    print_models i results show_downloads w
    = (Ok tt, printed w (model_lines i results show_downloads)).
Proof.
  induction results as [| model results IH]; intros i w Hp;
    cbn [print_models model_lines].
  - by rewrite printed_nil.
  - apply Forall_cons in Hp as [Hm Hp].
    unfold bind at 1. rewrite (print_model_line_ok _ _ _ _ Hm).
    by rewrite (IH _ _ Hp), printed_app.
Qed.

(** The loop stops at the first record that cannot be formatted, with the
    lines of the records before it printed. *)
Lemma print_models_raise good bad rest show_downloads :
  ∀ i w,
    Forall (printable show_downloads) good →
    ¬ printable show_downloads bad →
    ∃ e, print_models i (good ++ bad :: rest) show_downloads w
         = (Raise e, printed w (model_lines i good show_downloads))
         ∧ is_Exception e = true.
Proof.
  induction good as [| model good IH]; intros i w Hp Hb;
    cbn [app print_models model_lines].
  - destruct (print_model_line_raise i bad show_downloads w Hb) as (e & He & Hx).
    exists e. unfold bind at 1. by rewrite He, printed_nil.
  - apply Forall_cons in Hp as [Hm Hp].
    unfold bind at 1. rewrite (print_model_line_ok _ _ _ _ Hm).
    destruct (IH (i + 1) (printed w [model_line i model show_downloads]) Hp Hb)
      as (e & He & Hx).
    exists e. by rewrite He, printed_app.
Qed.

Lemma model_lines_length results show_downloads :
  ∀ i, length (model_lines i results show_downloads) = length results.
Proof.
  induction results as [| model results IH]; intros i; cbn; [done |].
  by rewrite IH.
Qed.

(** What [print_results] does when every record can be formatted. *)
Lemma print_results_run results show_downloads w :
  Forall (printable show_downloads) results →
  print_results results show_downloads w
  = (Ok tt, printed w (results_lines results show_downloads)).
Proof.
  intros Hp. destruct results as [| model results]; [done |].
  unfold print_results, results_lines. set (rs := model :: results) in *.
  unfold bind at 1. rewrite print_printed.
  unfold bind at 1. rewrite print_printed.
  by rewrite (print_models_ok _ _ _ _ Hp), !printed_app.
Qed.

(** X9: when every record can be formatted (its task is not [None] and,
    if the downloads are shown, its download count is a number),
    [print_results] returns and prints the no-models message for an empty
    list, else the count line, the rule and one line per record in order;
    it changes nothing else. *)
Theorem print_results_ok (results : list ModelRecord) (show_downloads : bool)
    (w : world) :
  Forall (printable show_downloads) results →
  print_results results show_downloads w
  = (Ok tt,
     printed w
       match results with
       | [] => ["❌ No models found matching your criteria"]
       | _ =>
           String LF ("🔍 Found " +:+ py_str (PyInt (Z.of_nat (length results)))
                        +:+ " models:")
             :: repeat_char "-" 100
             :: model_lines 1 results show_downloads
       end)
  ∧ length (model_lines 1 results show_downloads) = length results.
Proof.
  intros Hp. split; [| apply model_lines_length].
  by rewrite (print_results_run _ _ _ Hp).
Qed.

Lemma print_results_ok_witness :
  print_results [gpt2_record; bare_record "bert"] true empty_world
  = (Ok tt,
     printed empty_world
       (String LF ("🔍 Found "
                     +:+ py_str (PyInt (Z.of_nat
                                          (length [gpt2_record;
                                                   bare_record "bert"])))
                     +:+ " models:")
          :: repeat_char "-" 100
          :: model_lines 1 [gpt2_record; bare_record "bert"] true))
  ∧ length (model_lines 1 [gpt2_record; bare_record "bert"] true)
    = length [gpt2_record; bare_record "bert"].
Proof.
  apply (print_results_ok [gpt2_record; bare_record "bert"] true empty_world).
  repeat constructor; try discriminate; intros _; by eexists.
Defined.

(** X10: at the first record that cannot be formatted [print_results]
    raises an [Exception], after the count line (which counts all the
    records), the rule and the lines of the records before that one. *)
Theorem print_results_raises (good rest : list ModelRecord) (bad : ModelRecord)
    (show_downloads : bool) (w : world) :
  Forall (printable show_downloads) good →
  ¬ printable show_downloads bad →
  ∃ e,
    print_results (good ++ bad :: rest) show_downloads w
    = (Raise e,
       printed w
         (String LF ("🔍 Found "
                       +:+ py_str (PyInt (Z.of_nat
                                            (length (good ++ bad :: rest))))
                       +:+ " models:")
            :: repeat_char "-" 100
            :: model_lines 1 good show_downloads))
    ∧ is_Exception e = true.
Proof.
  intros Hp Hb.
  destruct (print_models_raise good bad rest show_downloads 1
              (printed w
                 [String LF ("🔍 Found "
                               +:+ py_str (PyInt (Z.of_nat
                                                    (length (good ++ bad :: rest))))
                               +:+ " models:");
                  repeat_char "-" 100]) Hp Hb) as (e & He & Hx).
  exists e. split; [| done].
  unfold print_results.
  destruct (good ++ bad :: rest) as [| model results] eqn:Hrs.
  { by destruct good. }
  rewrite <- Hrs in *. clear Hrs.
  unfold bind at 1. rewrite print_printed.
  unfold bind at 1. rewrite print_printed.
  rewrite printed_app. cbn [app]. by rewrite He, printed_app.
Qed.

Lemma print_results_raises_witness :
  ∃ e,
    print_results ([gpt2_record] ++ unprintable_record :: [bare_record "bert"])
      true empty_world
    = (Raise e,
       printed empty_world
         (String LF ("🔍 Found "
                       +:+ py_str (PyInt (Z.of_nat
                                            (length ([gpt2_record]
                                                       ++ unprintable_record
                                                       :: [bare_record "bert"]))))
                       +:+ " models:")
            :: repeat_char "-" 100
            :: model_lines 1 [gpt2_record] true))
    ∧ is_Exception e = true.
Proof.
  apply (print_results_raises [gpt2_record] [bare_record "bert"]
           unprintable_record true empty_world).
  - repeat constructor; try discriminate. intros _. by eexists.
  - intros [_ Hd]. destruct (Hd eq_refl) as [d Hd']. discriminate Hd'.
Defined.

(** The records [search] returns can be formatted, downloads shown or
    not. *)
Lemma search_results_printable list_models a w results show_downloads :
  (search list_models a w).1 = Ok results →
  Forall (printable show_downloads) results.
Proof.
  intros Hs. apply Forall_forall. intros r Hr. split.
  - assert (Hp : produced r).
    { right. by exists list_models, a, w, results. }
    apply produced_formatted in Hp as (model & Hm).
    apply formatted_inv in Hm as (id & _ & _ & _ & Ht & _).
    rewrite Ht. unfold py_or. intros Hnone.
    destruct (truthy _) eqn:Htr; [| done].
    by rewrite Hnone in Htr.
  - intros _. destruct (search_floor _ _ _ _ _ Hs Hr) as (d & Hd & _).
    by exists d.
Qed.

(** X11: whatever [search] returns can be printed: on the list of a
    [search], [print_results] returns without an exception, with the
    downloads shown or not. *)
Theorem print_results_of_search (list_models : gmap string pyval -> listing)
    (a : Args.t) (w w' : world) (results : list ModelRecord)
    (show_downloads : bool) :
  (search list_models a w).1 = Ok results →
  (print_results results show_downloads w').1 = Ok tt
  ∧ length (w_stdout (print_results results show_downloads w').2)
    = (length (w_stdout w') + if decide (results = []) then 1 else 2 + length results)%nat.
Proof.
  intros Hs.
  pose proof (search_results_printable _ _ _ _ show_downloads Hs) as Hp.
  rewrite (print_results_run _ _ _ Hp). split; [done |].
  cbn [snd printed w_stdout]. rewrite length_app.
  destruct results as [| model results]; [done |].
  rewrite decide_False by done. unfold results_lines.
  cbn [length]. by rewrite model_lines_length.
Qed.

Lemma print_results_of_search_witness :
  (print_results [gpt2_record] true empty_world).1 = Ok tt
  ∧ length (w_stdout (print_results [gpt2_record] true empty_world).2)
    = (length (w_stdout empty_world)
       + if decide ([gpt2_record] = []) then 1 else 2 + length [gpt2_record])%nat.
Proof.
  apply (print_results_of_search (list_of [bare_obj "tiny"; gpt2_obj])
           (with_min_downloads 1000) empty_world empty_world [gpt2_record] true).
  vm_compute. reflexivity.
Defined.

(** * Exporting, further *)

(** X12: for a non-empty list and a file name whose parent directory can be
    made and that can be opened for writing, [export_csv] returns, leaves
    every file but the one the name denotes, and the log, as they were,
    asks once for the parent directory of the file, and prints one line,
    which tells the number of records and the file name. When the file
    system refuses the directory or the file, [export_csv] raises what it
    answers and the world is as before. *)
Theorem export_csv_frame (results : list ModelRecord) (filename : string)
    (w : world) :
  results ≠ [] →
  (can_write w filename →
   (export_csv results filename w).1 = Ok tt
   ∧ (∀ other, other ≠ w_realpath w filename →
        w_files (export_csv results filename w).2 !! other
        = w_files w !! other)
   ∧ w_log (export_csv results filename w).2 = w_log w
   ∧ w_mkdirs (export_csv results filename w).2 = w_mkdirs w ++ [filename]
   ∧ w_stdout (export_csv results filename w).2
     = w_stdout w
         ++ ["💾 Exported " +:+ py_str (PyInt (Z.of_nat (length results)))
               +:+ " models to: " +:+ filename])
  ∧ (∀ e, w_mkdir_error w filename = Some e →
       export_csv results filename w = (Raise e, w))
  ∧ (∀ e, w_mkdir_error w filename = None → filename ≠ "" →
       w_open_error w filename = Some e →
       (export_csv results filename w).1 = Raise e
       ∧ w_files (export_csv results filename w).2 = w_files w
       ∧ w_stdout (export_csv results filename w).2 = w_stdout w).
Proof.
  intros Hne. split; [| split].
  - intros Hcan.
    destruct (export_csv_run results filename w Hne Hcan)
      as (Hr & _ & Ho & Hl & Hm & Hp).
    done.
  - intros e He. destruct results as [| model results]; [done |].
    unfold export_csv, bind, mkdir_parent. by rewrite He.
  - intros e Hm Hf He. destruct results as [| model results]; [done |].
    unfold export_csv, bind, mkdir_parent, open_w. rewrite Hm. cbn.
    by rewrite bool_decide_eq_false_2, He.
Qed.

Lemma export_csv_frame_witness :
  (export_csv [gpt2_record] "out.csv" empty_world).1 = Ok tt
  ∧ (∀ other, other ≠ w_realpath empty_world "out.csv" →
       w_files (export_csv [gpt2_record] "out.csv" empty_world).2 !! other
       = w_files empty_world !! other)
  ∧ w_log (export_csv [gpt2_record] "out.csv" empty_world).2
    = w_log empty_world
  ∧ w_mkdirs (export_csv [gpt2_record] "out.csv" empty_world).2
    = w_mkdirs empty_world ++ ["out.csv"]
  ∧ w_stdout (export_csv [gpt2_record] "out.csv" empty_world).2
    = w_stdout empty_world
        ++ ["💾 Exported " +:+ py_str (PyInt (Z.of_nat (length [gpt2_record])))
              +:+ " models to: " +:+ "out.csv"].
Proof.
  destruct (export_csv_frame [gpt2_record] "out.csv" empty_world) as (H & _).
  - discriminate.
  - apply H. repeat split. discriminate.
Defined.

(** * [main] *)

Lemma log_only_search list_models a : log_only (search list_models a).
Proof.
  unfold search. apply log_only_bind; [apply log_only_logger |].
  intros _. apply log_only_search_body.
Qed.

(** [main] after a [search] that returned: the printing, then the
    export. *)
Lemma main_run list_models args w results :
  (search list_models (main_search_args args) w).1 = Ok results →
  main list_models args w
  = main_export results (Cli.csv args)
      (printed (search list_models (main_search_args args) w).2
         (results_lines results (negb (Cli.no_downloads args)))).
Proof.
  intros Hs. unfold main. rewrite (bind_ok _ _ _ _ Hs).
  pose proof (search_results_printable _ _ _ _
                (negb (Cli.no_downloads args)) Hs) as Hp.
  unfold bind. by rewrite (print_results_run _ _ _ Hp).
Qed.

Lemma main_raise list_models args w e :
  (search list_models (main_search_args args) w).1 = Raise e →
  (main list_models args w).1 = Raise e.
Proof. intros Hs. unfold main. by rewrite (bind_raise _ _ _ _ Hs). Qed.

(** The answers of the file system are the same after a search and the
    printing of its list. *)
Lemma can_write_after_search list_models a w lines filename :
  can_write w filename →
  can_write (printed (search list_models a w).2 lines) filename.
Proof.
  intros (Hne & Hm & Ho).
  destruct (log_only_search list_models a w)
    as (_ & _ & _ & _ & _ & Hmk & Hop).
  unfold can_write. cbn [printed w_mkdir_error w_open_error].
  by rewrite Hmk, Hop.
Qed.

(** X13: when [--csv] names a file whose parent directory can be made and
    that can be opened for writing, and the search returns a non-empty
    list, [main] returns, the file the name denotes holds the CSV text of
    exactly that list, and every other file is as before. *)
Theorem main_exports (list_models : gmap string pyval -> listing)
    (args : Cli.t) (w : world) (filename : string)
    (results : list ModelRecord) :
  Cli.csv args = Some filename →
  can_write w filename →
  (search list_models (main_search_args args) w).1 = Ok results →
  results ≠ [] →
  (main list_models args w).1 = Ok tt
  ∧ w_files (main list_models args w).2 !! w_realpath w filename
    = Some (csv_text_of results)
  ∧ ∀ other, other ≠ w_realpath w filename →
      w_files (main list_models args w).2 !! other = w_files w !! other.
Proof.
  intros Hcsv Hcan Hs Hne. rewrite (main_run _ _ _ _ Hs), Hcsv.
  unfold main_export. rewrite truthy_str by apply Hcan.
  destruct (log_only_search list_models (main_search_args args) w)
    as (_ & _ & _ & Hfiles & Hpath & _).
  pose proof (can_write_after_search list_models (main_search_args args) w
                (results_lines results (negb (Cli.no_downloads args)))
                filename Hcan) as Hcan'.
  destruct (export_csv_run results filename _ Hne Hcan')
    as (Hr & Hc & Ho & _).
  cbn [printed w_realpath] in Hc, Ho. rewrite Hpath in Hc, Ho.
  split; [done |]. split; [done |].
  intros other Hother. rewrite (Ho other Hother). cbn [printed w_files].
  by rewrite Hfiles.
Qed.

Lemma main_exports_witness :
  (main (list_of [bare_obj "tiny"; gpt2_obj]) sample_cli_100 empty_world).1
  = Ok tt
  ∧ w_files (main (list_of [bare_obj "tiny"; gpt2_obj]) sample_cli_100
               empty_world).2 !! w_realpath empty_world "out/models.csv"
    = Some (csv_text_of [gpt2_record])
  ∧ ∀ other, other ≠ w_realpath empty_world "out/models.csv" →
      w_files (main (list_of [bare_obj "tiny"; gpt2_obj]) sample_cli_100
                 empty_world).2 !! other
      = w_files empty_world !! other.
Proof.
  apply (main_exports (list_of [bare_obj "tiny"; gpt2_obj]) sample_cli_100
           empty_world "out/models.csv" [gpt2_record]).
  - reflexivity.
  - repeat split. discriminate.
  - vm_compute. reflexivity.
  - discriminate.
Defined.

(** X14: when the search returns the empty list, or [--csv] is absent or
    empty, [main] returns and writes no file and asks for no directory. *)
Theorem main_writes_nothing (list_models : gmap string pyval -> listing)
    (args : Cli.t) (w : world) (results : list ModelRecord) :
  (search list_models (main_search_args args) w).1 = Ok results →
  results = [] ∨ Cli.csv args = None ∨ Cli.csv args = Some "" →
  (main list_models args w).1 = Ok tt
  ∧ w_files (main list_models args w).2 = w_files w
  ∧ w_mkdirs (main list_models args w).2 = w_mkdirs w.
Proof.
  intros Hs Hcase. rewrite (main_run _ _ _ _ Hs).
  destruct (log_only_search list_models (main_search_args args) w)
    as (_ & _ & Hm & Hfiles & _).
  assert (Hnone :
    ∀ w', (main_export results (Cli.csv args) w').1 = Ok tt
          ∧ w_files (main_export results (Cli.csv args) w').2 = w_files w'
          ∧ w_mkdirs (main_export results (Cli.csv args) w').2 = w_mkdirs w').
  { intros w'. unfold main_export.
    destruct Hcase as [-> | [-> | ->]]; [| done | done].
    destruct (Cli.csv args) as [f |]; [| done].
    by destruct (truthy (PyStr f)). }
  match goal with
  | |- context [main_export _ _ ?w'] =>
      destruct (Hnone w') as (H1 & H2 & H3)
  end.
  rewrite H1, H2, H3. cbn [printed w_files w_mkdirs]. by rewrite Hm, Hfiles.
Qed.

Lemma main_writes_nothing_witness :
  (main (list_of [gpt2_obj]) sample_cli empty_world).1 = Ok tt
  ∧ w_files (main (list_of [gpt2_obj]) sample_cli empty_world).2
    = w_files empty_world
  ∧ w_mkdirs (main (list_of [gpt2_obj]) sample_cli empty_world).2
    = w_mkdirs empty_world.
Proof.
  apply (main_writes_nothing (list_of [gpt2_obj]) sample_cli empty_world []).
  - vm_compute. reflexivity.
  - by left.
Defined.

(** X15: every record of the search [main] runs has a download count not
    below [--min-downloads], and with [--popular] not below 10000 either:
    the floor is the larger of the two. *)
Theorem main_floor (list_models : gmap string pyval -> listing)
    (args : Cli.t) (w : world) (results : list ModelRecord) (r : ModelRecord) :
  (search list_models (main_search_args args) w).1 = Ok results →
  r ∈ results →
  ∃ d, as_int (downloads r) = Some d
       ∧ Cli.min_downloads args ≤ d
       ∧ (Cli.popular args = true → 10000 ≤ d).
Proof.
  intros Hs Hr. destruct (search_floor _ _ _ _ _ Hs Hr) as (d & Hd & Hle).
  exists d. split; [done |]. cbn in Hle.
  destruct (Cli.popular args); split; try done; lia.
Qed.

Lemma main_floor_witness :
  ∃ d, as_int (downloads popular_record) = Some d
       ∧ Cli.min_downloads sample_cli ≤ d
       ∧ (Cli.popular sample_cli = true → 10000 ≤ d).
Proof.
  apply (main_floor (list_of [gpt2_obj; popular_obj]) sample_cli empty_world
           [popular_record] popular_record).
  - vm_compute. reflexivity.
  - apply list_elem_of_here.
Defined.

(** X16: when the listing raises an [Exception], [main] returns, prints
    the no-models message, then the no-results message if [--csv] names a
    file, and writes no file. *)
Theorem main_upstream_failure (list_models : gmap string pyval -> listing)
    (args : Cli.t) (w : world) (e : pyexc) :
  listing_exc (list_models (build_search_params (main_search_args args)))
  = Some e →
  is_Exception e = true →
  (main list_models args w).1 = Ok tt
  ∧ w_files (main list_models args w).2 = w_files w
  ∧ w_stdout (main list_models args w).2
    = w_stdout w
        ++ "❌ No models found matching your criteria"
        :: match filter_value (Cli.csv args) with
           | Some _ => ["❌ No results to export"]
           | None => []
           end.
Proof.
  intros Hl He.
  assert (Hs : (search list_models (main_search_args args) w).1 = Ok []).
  { by rewrite search_fst, Hl, He. }
  rewrite (main_run _ _ _ _ Hs).
  destruct (log_only_search list_models (main_search_args args) w)
    as (_ & Ho & _ & Hfiles & _).
  unfold main_export, filter_value, results_lines.
  destruct (Cli.csv args) as [f |]; [destruct (truthy (PyStr f)) |].
  - change (export_csv [] f) with (print "❌ No results to export").
    rewrite print_printed, printed_app.
    cbn [fst snd printed w_files w_stdout app]. by rewrite Ho, Hfiles.
  - unfold ret. cbn [fst snd printed w_files w_stdout]. by rewrite Ho, Hfiles.
  - unfold ret. cbn [fst snd printed w_files w_stdout]. by rewrite Ho, Hfiles.
Qed.

Lemma main_upstream_failure_witness :
  (main (list_then_raise [gpt2_obj] (PyException "ConnectionError" "timed out"))
     sample_cli empty_world).1 = Ok tt
  ∧ w_files (main (list_then_raise [gpt2_obj]
                     (PyException "ConnectionError" "timed out"))
               sample_cli empty_world).2 = w_files empty_world
  ∧ w_stdout (main (list_then_raise [gpt2_obj]
                      (PyException "ConnectionError" "timed out"))
                sample_cli empty_world).2
    = w_stdout empty_world
        ++ "❌ No models found matching your criteria"
        :: match filter_value (Cli.csv sample_cli) with
           | Some _ => ["❌ No results to export"]
           | None => []
           end.
Proof.
  apply (main_upstream_failure
           (list_then_raise [gpt2_obj] (PyException "ConnectionError" "timed out"))
           sample_cli empty_world (PyException "ConnectionError" "timed out"));
    reflexivity.
Defined.

(** Where an exception of an export comes from. *)
Lemma export_csv_raise_origin results filename w e :
  (export_csv results filename w).1 = Raise e →
  filename = ""
  ∨ w_mkdir_error w filename = Some e
  ∨ w_open_error w filename = Some e.
Proof.
  intros Hr. destruct results as [| model results]; [done |].
  destruct (decide (filename = "")) as [-> | Hne]; [by left |]. right.
  destruct (w_mkdir_error w filename) as [e1 |] eqn:Hm.
  - left. revert Hr. unfold export_csv, bind, mkdir_parent. rewrite Hm. cbn.
    by intros [= ->].
  - right. destruct (w_open_error w filename) as [e2 |] eqn:Ho.
    + revert Hr. unfold export_csv, bind, mkdir_parent, open_w.
      rewrite Hm. cbn. rewrite bool_decide_eq_false_2, Ho by done.
      by intros [= ->].
    + by rewrite export_csv_fst in Hr.
Qed.



(** X18: what the options of the command line send to the listing:
    [--asc] the direction 1, else -1; [--recent] the creation date
    [2024-01-01], else none; [--name], [--task], [--org] and [--library]
    their value when it is not empty; [--sort] and [--limit] their value;
    the download floor is not sent. *)
Theorem main_search_params (args : Cli.t) :
  let search_params := build_search_params (main_search_args args) in
  search_params !! "direction"
  = Some (PyInt (if Cli.asc args then 1 else -1))
  ∧ search_params !! "created_at"
    = (if Cli.recent args then Some (PyStr "2024-01-01") else None)
  ∧ search_params !! "search" = filter_value (Cli.name args)
  ∧ search_params !! "task" = filter_value (Cli.task args)
  ∧ search_params !! "author" = filter_value (Cli.org args)
  ∧ search_params !! "library" = filter_value (Cli.library args)
  ∧ search_params !! "sort" = Some (PyStr (Cli.sort args))
  ∧ search_params !! "limit" = Some (PyInt (Cli.limit args))
  ∧ search_params !! "min_downloads" = None.
Proof.
  intros search_params. subst search_params.
  unfold build_search_params.
  repeat split; rewrite ?add_filter_lookup;
    repeat (case_decide; [discriminate |]);
    try (case_decide; [| done]);
    try (by destruct (filter_value _));
    try reflexivity.
  cbn. by destruct (Cli.recent args).
Qed.

(** * The command loop *)

(** ** Running interactive commands *)

Lemma ibind_ok {A B} (m : IM A) (k : A -> IM B) script w a script' w' :
  m script w = (IOk a, script', w') → ibind m k script w = k a script' w'.
Proof. unfold ibind. by intros ->. Qed.

Lemma ilift_ok {A} (m : M A) script w a :
  (m w).1 = Ok a → ilift m script w = (IOk a, script, (m w).2).
Proof. unfold ilift. destruct (m w) as [r w']. cbn. by intros ->. Qed.

Lemma print_all_printed lines :
  ∀ w, print_all lines w = (Ok tt, printed w lines).
Proof.
  induction lines as [| line lines IH]; intros w; cbn [print_all].
  - unfold ret. by rewrite printed_nil.
  - unfold bind. rewrite print_printed, IH. by rewrite printed_app.
Qed.

Lemma run_command_break list_models command :
  command = "" ∨ lower command ∈ ["quit"; "exit"; "q"] →
  run_command list_models command = iret Break.
Proof.
  intros Hq. unfold run_command.
  assert (Hc : negb (truthy (PyStr command))
               || bool_decide (lower command ∈ ["quit"; "exit"; "q"]) = true).
  { destruct Hq as [-> | Hq]; [done |].
    rewrite (bool_decide_eq_true_2 _ Hq). apply orb_true_r. }
  by rewrite Hc.
Qed.

Lemma run_command_search_line list_models command :
  is_search_line command →
  run_command list_models command
  = match py_split command with
    | [] => iret Continue
    | part0 :: more =>
        match dispatch list_models (lower part0) (head more) with
        | None => ilift (print unknown_command_line) ;;~ iret Continue
        | Some call => run_search call (lower part0) (head more)
        end
    end.
Proof.
  intros (Hne & Hq & Hh). unfold run_command.
  rewrite truthy_str by done.
  by rewrite (bool_decide_eq_false_2 _ Hq), (bool_decide_eq_false_2 _ Hh).
Qed.

(** The loop after a line was entered at the prompt. *)
Lemma interactive_iteration_line list_models text rest w :
  interactive_iteration list_models (Line text :: rest) w
  = try_interactive (run_command list_models (strip text))
      (ilift (print goodbye_line) ;;~ iret Break)
      (fun e => ilift (print ("❌ Error: " +:+ exc_str e)) ;;~ iret Continue)
      rest (printed w [main_prompt]).
Proof. reflexivity. Qed.

(** ** Leaving the session *)

(** X19: an empty or blank line, or [quit], [exit] or [q] in any letter
    case and between any blanks, ends the session at once: only the prompt
    was written, no search is run, and the events after the line are left
    unread. *)
Theorem interactive_quit (list_models : gmap string pyval -> listing)
    (fuel : nat) (text : string) (rest : list input_event) (w : world) :
  strip text = "" ∨ lower (strip text) ∈ ["quit"; "exit"; "q"] →
  interactive_loop list_models (S fuel) (Line text :: rest) w
  = (IOk Ended, rest, printed w [main_prompt]).
Proof.
  intros Hq. cbn [interactive_loop]. unfold ibind at 1.
  rewrite interactive_iteration_line.
  by rewrite (run_command_break _ _ Hq).
Qed.

Lemma interactive_quit_witness :
  interactive_loop (list_of [gpt2_obj]) 1 [Line "  Quit "; Line "popular"]
    empty_world
  = (IOk Ended, [Line "popular"], printed empty_world [main_prompt]).
Proof.
  apply (interactive_quit (list_of [gpt2_obj]) 0 "  Quit " [Line "popular"]
           empty_world).
  right. compute_done.
Defined.

(** X20: at the prompt, an interrupt ends the session after the goodbye
    line; a closed input does not: the [EOFError] is printed as an error
    and the loop goes on with the next prompt. *)
Theorem interactive_interrupt_and_eof
    (list_models : gmap string pyval -> listing) (fuel : nat)
    (rest : list input_event) (w : world) :
  interactive_loop list_models (S fuel) (CtrlC :: rest) w
  = (IOk Ended, rest, printed w [main_prompt; goodbye_line])
  ∧ interactive_loop list_models (S fuel) (CtrlD :: rest) w
    = interactive_loop list_models fuel rest
        (printed w [main_prompt; "❌ Error: EOF when reading a line"]).
Proof.
  split.
  - change (interactive_loop list_models (S fuel) (CtrlC :: rest) w)
      with (IOk Ended, rest,
            printed (printed w [main_prompt]) [goodbye_line]).
    by rewrite printed_app.
  - change (interactive_loop list_models (S fuel) (CtrlD :: rest) w)
      with (interactive_loop list_models fuel rest
              (printed (printed w [main_prompt])
                 ["❌ Error: EOF when reading a line"])).
    by rewrite printed_app.
Qed.

(** ** Commands that run no search *)

Lemma dispatch_unknown list_models cmd arg :
  cmd ∉ ["search"; "task"; "org"; "popular"; "recent"]
  ∨ (cmd ∈ ["search"; "task"; "org"] ∧ arg = None) →
  dispatch list_models cmd arg = None.
Proof.
  unfold dispatch. intros [Hn | [Hin ->]].
  - repeat (apply not_elem_of_cons in Hn as [? Hn]).
    rewrite !(bool_decide_eq_false_2 (cmd = _)) by done. done.
  - rewrite !elem_of_cons, elem_of_nil in Hin.
    destruct Hin as [-> | [-> | [-> | []]]]; reflexivity.
Qed.

(** X21: a line of ASCII text whose first word is not one of the five
    commands, in any letter case, or is [search], [task] or [org] with no
    word after it, runs no search: the unknown-command line is printed and
    the loop goes on. *)
Theorem interactive_unknown_command
    (list_models : gmap string pyval -> listing) (fuel : nat)
    (text : string) (rest : list input_event) (w : world)
    (part0 : string) (more : list string) :
  is_ascii text = true →
  is_search_line (strip text) →
  py_split (strip text) = part0 :: more →
  lower part0 ∉ ["search"; "task"; "org"; "popular"; "recent"]
  ∨ (lower part0 ∈ ["search"; "task"; "org"] ∧ more = []) →
  interactive_loop list_models (S fuel) (Line text :: rest) w
  = interactive_loop list_models fuel rest
      (printed w [main_prompt; unknown_command_line]).
Proof.
  intros _ Hline Hsplit Hcmd. cbn [interactive_loop]. unfold ibind at 1.
  rewrite interactive_iteration_line.
  rewrite (run_command_search_line _ _ Hline), Hsplit.
  rewrite dispatch_unknown.
  - change (try_interactive ?b ?i ?h rest (printed w [main_prompt]))
      with (IOk Continue, rest,
            printed (printed w [main_prompt]) [unknown_command_line]).
    by rewrite printed_app.
  - destruct Hcmd as [Hn | [Hin ->]]; [by left | by right].
Qed.

Lemma interactive_unknown_command_witness :
  interactive_loop (list_of [gpt2_obj]) 1 [Line "Search"] empty_world
  = interactive_loop (list_of [gpt2_obj]) 0 []
      (printed empty_world [main_prompt; unknown_command_line]).
Proof.
  apply (interactive_unknown_command (list_of [gpt2_obj]) 0 "Search" []
           empty_world "Search" []).
  - reflexivity.
  - repeat split; [discriminate | compute_done ..].
  - reflexivity.
  - right. split; [compute_done | done].
Defined.

(** ** A search and the export question *)

(** The searches of the command loop are calls of [search]. *)
Lemma dispatch_search list_models cmd arg call :
  dispatch list_models cmd arg = Some call →
  ∃ a, call = search list_models a.
Proof.
  unfold dispatch, search_by_name, search_by_task, search_by_org,
    get_popular, get_recent.
  destruct (bool_decide (cmd = "search") && arg_truthy arg);
    [intros [= <-]; by eexists |].
  destruct (bool_decide (cmd = "task") && arg_truthy arg);
    [intros [= <-]; by eexists |].
  destruct (bool_decide (cmd = "org") && arg_truthy arg);
    [intros [= <-]; by eexists |].
  destruct (bool_decide (cmd = "popular")); [intros [= <-]; by eexists |].
  destruct (bool_decide (cmd = "recent")); [intros [= <-]; by eexists | done].
Qed.

Lemma ask_export_none cmd arg script w :
  ask_export [] cmd arg script w = (IOk tt, script, w).
Proof. reflexivity. Qed.

Lemma ask_export_answer results cmd arg answer rest w :
  results ≠ [] →
  can_write w (export_filename cmd arg) →
  ask_export results cmd arg (Line answer :: rest) w
  = if bool_decide (strip (lower answer) ∈ ["y"; "yes"]) then
      (IOk tt, rest,
       (export_csv results (export_filename cmd arg)
          (printed w [export_prompt])).2)
    else (IOk tt, rest, printed w [export_prompt]).
Proof.
  intros Hne Hcan. unfold ask_export.
  rewrite (bool_decide_eq_false_2 (results = [])) by done. cbn [negb].
  unfold ibind, input. cbn iota.
  destruct (bool_decide (strip (lower answer) ∈ ["y"; "yes"])); [| done].
  by rewrite (ilift_ok _ _ _ tt) by (by apply export_csv_fst).
Qed.

(** An iteration that runs a search, up to the export question. *)
Lemma run_search_start list_models a cmd arg script w results :
  (search list_models a w).1 = Ok results →
  run_search (search list_models a) cmd arg script w
  = (ask_export results cmd arg ;;~ ilift (print "") ;;~ iret Continue)
      script
      (printed (search list_models a w).2 (results_lines results true)).
Proof.
  intros Hs. unfold run_search.
  rewrite (ibind_ok _ _ _ _ _ _ _ (ilift_ok _ script _ _ Hs)).
  pose proof (search_results_printable _ _ _ _ true Hs) as Hp.
  erewrite ibind_ok; [reflexivity |].
  rewrite (ilift_ok _ _ _ tt) by (by rewrite (print_results_run _ _ _ Hp)).
  by rewrite (print_results_run _ _ _ Hp).
Qed.

(** X22: after a command, in ASCII text, whose search returns a non-empty
    list, the next line, in ASCII text, answers the export question. If it
    is [y] or [yes], in any letter case and between any blanks, and the
    file named after the command and its argument can be written, the file
    that name denotes holds the CSV text of the list and the other files
    are as before; with any other answer no file changes. Either way the
    loop goes on with the events after the answer. *)
Theorem interactive_export (list_models : gmap string pyval -> listing)
    (fuel : nat) (text answer : string) (rest : list input_event) (w : world)
    (part0 : string) (more : list string) (call : M (list ModelRecord))
    (results : list ModelRecord) :
  is_ascii text = true →
  is_ascii answer = true →
  is_search_line (strip text) →
  py_split (strip text) = part0 :: more →
  dispatch list_models (lower part0) (head more) = Some call →
  (call (printed w [main_prompt])).1 = Ok results →
  results ≠ [] →
  can_write w (export_filename (lower part0) (head more)) →
  ∃ w',
    interactive_loop list_models (S fuel) (Line text :: Line answer :: rest) w
    = interactive_loop list_models fuel rest w'
    ∧ if bool_decide (strip (lower answer) ∈ ["y"; "yes"]) then
        w_files w'
          !! w_realpath w (export_filename (lower part0) (head more))
        = Some (csv_text_of results)
        ∧ ∀ other,
            other ≠ w_realpath w (export_filename (lower part0) (head more)) →
            w_files w' !! other = w_files w !! other
      else w_files w' = w_files w.
Proof.
  intros _ _ Hline Hsplit Hd Hs Hne Hcan.
  destruct (dispatch_search _ _ _ _ Hd) as [a ->].
  cbn [interactive_loop]. unfold ibind at 1.
  rewrite interactive_iteration_line.
  rewrite (run_command_search_line _ _ Hline), Hsplit, Hd.
  unfold try_interactive. rewrite (run_search_start _ _ _ _ _ _ _ Hs).
  destruct (log_only_search list_models a (printed w [main_prompt]))
    as (_ & _ & _ & Hfiles & Hpath & _).
  assert (Hcan1 : can_write (printed w [main_prompt])
                    (export_filename (lower part0) (head more))) by done.
  pose proof (can_write_after_search list_models a _
                (results_lines results true) _ Hcan1) as Hcan2.
  unfold ibind at 1. rewrite (ask_export_answer _ _ _ _ _ _ Hne Hcan2).
  destruct (bool_decide (strip (lower answer) ∈ ["y"; "yes"])).
  - eexists. split; [reflexivity |].
    cbn [ilift print printed w_files snd].
    assert (Hcan3 :
      can_write
        (printed (printed (search list_models a (printed w [main_prompt])).2
                    (results_lines results true)) [export_prompt])
        (export_filename (lower part0) (head more))) by done.
    destruct (export_csv_run results _ _ Hne Hcan3) as (_ & Hc & Ho & _).
    cbn [printed w_realpath] in Hc, Ho. rewrite Hpath in Hc, Ho.
    cbn [printed w_realpath] in Hc, Ho.
    split; [done |]. intros other Hother.
    rewrite (Ho other Hother). cbn [printed w_files]. by rewrite Hfiles.
  - eexists. split; [reflexivity |].
    cbn [ilift print printed w_files snd]. by rewrite Hfiles.
Qed.

Lemma interactive_export_witness :
  ∃ w',
    interactive_loop (list_of [popular_obj]) 1
      [Line "popular"; Line " Yes "] empty_world
    = interactive_loop (list_of [popular_obj]) 0 [] w'
    ∧ if bool_decide (strip (lower " Yes ") ∈ ["y"; "yes"]) then
        w_files w'
          !! w_realpath empty_world (export_filename (lower "popular") (head []))
        = Some (csv_text_of [popular_record])
        ∧ ∀ other,
            other ≠ w_realpath empty_world
                      (export_filename (lower "popular") (head [])) →
            w_files w' !! other = w_files empty_world !! other
      else w_files w' = w_files empty_world.
Proof.
  apply (interactive_export (list_of [popular_obj]) 0 "popular" " Yes " []
           empty_world "popular" []
           (get_popular (list_of [popular_obj]) None 50) [popular_record]).
  - reflexivity.
  - reflexivity.
  - repeat split; [discriminate | compute_done ..].
  - reflexivity.
  - reflexivity.
  - vm_compute. reflexivity.
  - discriminate.
  - repeat split. discriminate.
Defined.

(** X23: after a command, in ASCII text, whose search returns the empty
    list (so also when the listing fails with an [Exception]), no export
    question is asked:
    the no-models line and an empty line are printed, no file changes, and
    the next event is read at the main prompt. *)
Theorem interactive_no_results (list_models : gmap string pyval -> listing)
    (fuel : nat) (text : string) (rest : list input_event) (w : world)
    (part0 : string) (more : list string) (call : M (list ModelRecord)) :
  is_ascii text = true →
  is_search_line (strip text) →
  py_split (strip text) = part0 :: more →
  dispatch list_models (lower part0) (head more) = Some call →
  (call (printed w [main_prompt])).1 = Ok [] →
  ∃ w',
    interactive_loop list_models (S fuel) (Line text :: rest) w
    = interactive_loop list_models fuel rest w'
    ∧ w_files w' = w_files w
    ∧ w_stdout w'
      = w_stdout w
          ++ [main_prompt; "❌ No models found matching your criteria"; ""].
Proof.
  intros _ Hline Hsplit Hd Hs.
  destruct (dispatch_search _ _ _ _ Hd) as [a ->].
  cbn [interactive_loop]. unfold ibind at 1.
  rewrite interactive_iteration_line.
  rewrite (run_command_search_line _ _ Hline), Hsplit, Hd.
  unfold try_interactive. rewrite (run_search_start _ _ _ _ _ _ _ Hs).
  destruct (log_only_search list_models a (printed w [main_prompt]))
    as (_ & Hout & _ & Hfiles & _).
  unfold ibind at 1. rewrite ask_export_none.
  eexists. split; [reflexivity |].
  cbn [ilift print printed w_files w_stdout snd results_lines].
  rewrite Hfiles, Hout. cbn [printed w_files w_stdout].
  split; [done |]. by rewrite <- !app_assoc.
Qed.

Lemma interactive_no_results_witness :
  ∃ w',
    interactive_loop (list_of [gpt2_obj]) 1 [Line "popular"; Line "y"]
      empty_world
    = interactive_loop (list_of [gpt2_obj]) 0 [Line "y"] w'
    ∧ w_files w' = w_files empty_world
    ∧ w_stdout w'
      = w_stdout empty_world
          ++ [main_prompt; "❌ No models found matching your criteria"; ""].
Proof.
  apply (interactive_no_results (list_of [gpt2_obj]) 0 "popular" [Line "y"]
           empty_world "popular" []
           (get_popular (list_of [gpt2_obj]) None 50)).
  - reflexivity.
  - repeat split; [discriminate | compute_done ..].
  - reflexivity.
  - reflexivity.
  - vm_compute. reflexivity.
Defined.

(** ** How a session ends *)

Lemma consumes_iret {A} (a : A) : consumes (iret a).
Proof. intros script w. done. Qed.

Lemma consumes_ilift {A} (m : M A) : consumes (ilift m).
Proof.
  intros script w. unfold ilift. by destruct (m w) as [[a | e] w'].
Qed.

Lemma consumes_input prompt : consumes (input prompt).
Proof.
  intros [| [text | |] rest] w; cbn; lia.
Qed.

Lemma consumes_ibind {A B} (m : IM A) (k : A -> IM B) :
  consumes m → (∀ a, consumes (k a)) → consumes (ibind m k).
Proof.
  intros Hm Hk script w. unfold ibind. specialize (Hm script w).
  destruct (m script w) as [[[a | e |] script'] w']; cbn in *; try done.
  specialize (Hk a script' w'). lia.
Qed.

Create HintDb consumes.
#[local] Hint Resolve consumes_iret consumes_ilift consumes_input : consumes.
#[local] Hint Extern 2 (consumes (ibind _ _)) =>
  apply consumes_ibind; [| intros ?] : consumes.

Lemma consumes_ask_export results cmd arg :
  consumes (ask_export results cmd arg).
Proof.
  unfold ask_export. case_match; [| auto with consumes].
  apply consumes_ibind; [auto with consumes |]. intros export.
  case_match; auto with consumes.
Qed.

Lemma consumes_run_command list_models command :
  consumes (run_command list_models command).
Proof.
  unfold run_command, run_search.
  repeat case_match; auto using consumes_ask_export with consumes.
Qed.

(** One iteration: it leaves the loop, or waits, or goes on with fewer
    events; an exception that leaves it is neither an [Exception] nor a
    [KeyboardInterrupt]. *)
Lemma interactive_iteration_end list_models script w :
  match (interactive_iteration list_models script w).1.1 with
  | IOk Break => True
  | IOk Continue =>
      (length (interactive_iteration list_models script w).1.2
       < length script)%nat
  | IBlocked => True
  | IRaise e => is_Exception e = false ∧ is_KeyboardInterrupt e = false
  end.
Proof.
  destruct script as [| [text | |] rest]; [done | | done | cbn; lia].
  rewrite interactive_iteration_line. unfold try_interactive.
  pose proof (consumes_run_command list_models (strip text) rest
                (printed w [main_prompt])) as Hc.
  destruct (run_command list_models (strip text) rest _)
    as [[[c | e |] script'] w']; cbn [fst snd] in *.
  - destruct c; [done |]. cbn. lia.
  - destruct (is_KeyboardInterrupt e) eqn:Hk; [done |].
    destruct (is_Exception e) eqn:He; [| done]. cbn. lia.
  - done.
Qed.

Lemma interactive_loop_end list_models fuel :
  ∀ script w,
    (length script < fuel)%nat →
    session_end (interactive_loop list_models fuel script w).1.1.
Proof.
  induction fuel as [| fuel IH]; intros script w Hlen; [lia |].
  cbn [interactive_loop]. unfold ibind.
  pose proof (interactive_iteration_end list_models script w) as Hit.
  destruct (interactive_iteration list_models script w)
    as [[[c | e |] script'] w']; cbn [fst snd] in *.
  - destruct c; [done |]. apply IH. lia.
  - done.
  - done.
Qed.

